(** * Cyberpunk Quotes dashboard ([app.py]): a shallow embedding

    The Streamlit script is modelled as pure functions over
    - Python values as the script reads them from the provider's records
      ([pyval]), with Python's truthiness and [dict.get];
    - binary64 numbers ([float], the kernel's primitive floats) for closing
      prices, with [format(x, ".2f")] computed exactly;
    - an output monad [ui] that records every [st.*] call in order and
      carries Python exceptions ([result]);
    - a [world] that answers each external call of one render cycle. *)

From Stdlib Require Import ZArith List String Ascii Bool Lia.
From Stdlib Require Import QArith Lqa.
From Stdlib Require Import DecimalString.
From Stdlib Require Import PrimFloat FloatOps SpecFloat.
Import ListNotations.

Local Open Scope string_scope.
Local Open Scope Z_scope.

Set Warnings "-register-all,-inexact-float".

(** ** Python values *)

(** The values [yfinance]'s info record and the JSON of the news provider
    hold. A dict keeps its items in order; keys are strings. *)
Inductive pyval : Type :=
  | PyNone
  | PyBool (b : bool)
  | PyInt (z : Z)
  | PyFloat (f : float)
  | PyStr (s : string)
  | PyList (l : list pyval)
  | PyDict (d : list (string * pyval)).

Definition dict := list (string * pyval).

(** [bool(v)]: what [if v], [not v] and [v and ...] test. *)
Definition truthy (v : pyval) : bool :=
  match v with
  | PyNone => false
  | PyBool b => b
  | PyInt z => negb (z =? 0)
  | PyFloat f => negb (PrimFloat.eqb f 0%float)
  | PyStr s => negb (String.eqb s "")
  | PyList l => match l with [] => false | _ => true end
  | PyDict d => match d with [] => false | _ => true end
  end.

(** [type(v).__name__], as it appears in Python's error messages. *)
Definition type_name (v : pyval) : string :=
  match v with
  | PyNone => "NoneType"
  | PyBool _ => "bool"
  | PyInt _ => "int"
  | PyFloat _ => "float"
  | PyStr _ => "str"
  | PyList _ => "list"
  | PyDict _ => "dict"
  end.

Fixpoint lookup (d : dict) (k : string) : option pyval :=
  match d with
  | [] => None
  | (k', v) :: d' => if String.eqb k' k then Some v else lookup d' k
  end.

(** [d.get(k, default)] and [d.get(k)] on a dict. *)
Definition dict_get_default (d : dict) (k : string) (default : pyval) : pyval :=
  match lookup d k with
  | Some v => v
  | None => default
  end.

Definition dict_get (d : dict) (k : string) : pyval :=
  dict_get_default d k PyNone.

(** ** Exceptions and results *)

(** An instance of Python's [Exception]: its class name and [str(e)]. *)
Record exn : Type := Exn { exn_class : string; exn_text : string }.

Definition result (A : Type) : Type := (exn + A)%type.

Definition AttributeError (v : pyval) (attr : string) : exn :=
  Exn "AttributeError"
      ("'" ++ type_name v ++ "' object has no attribute '" ++ attr ++ "'").

(** ** Strings *)

Fixpoint is_prefix (p s : string) : bool :=
  match p, s with
  | EmptyString, _ => true
  | String a p', String b s' => Ascii.eqb a b && is_prefix p' s'
  | String _ _, EmptyString => false
  end.

Fixpoint drop (n : nat) (s : string) : string :=
  match n, s with
  | O, _ => s
  | S n', String _ s' => drop n' s'
  | S _, EmptyString => EmptyString
  end.

(** [s.replace(pat, "")] for a non-empty [pat]: occurrences are removed from
    left to right, without rescanning. [fuel] bounds the characters to skip. *)
Fixpoint remove_all_fuel (fuel : nat) (pat s : string) : string :=
  match fuel with
  | O => s
  | S fuel' =>
      match s with
      | EmptyString => EmptyString
      | String c s' =>
          if is_prefix pat s
          then remove_all_fuel fuel' pat (drop (String.length pat) s)
          else String c (remove_all_fuel fuel' pat s')
      end
  end.

Definition remove_all (pat s : string) : string :=
  remove_all_fuel (String.length s) pat s.

(** [s.split(sep)[0]] for a one-character separator: the text before its
    first occurrence, the whole string when there is none. *)
Fixpoint split_first (sep : ascii) (s : string) : string :=
  match s with
  | EmptyString => EmptyString
  | String c s' => if Ascii.eqb c sep then EmptyString else String c (split_first sep s')
  end.

(** The characters [str.strip()] removes, in their UTF-8 encoding:
    U+0009..U+000D, U+001C..U+0020, U+0085, U+00A0, U+1680, U+2000..U+200A,
    U+2028, U+2029, U+202F, U+205F and U+3000. [space_prefix s] is the number
    of bytes of such a character at the head of [s], 0 when there is none. *)
Definition byte_of (c : ascii) : N := N_of_ascii c.

Definition space_prefix (s : string) : nat :=
  match s with
  | String a rest =>
      let x := byte_of a in
      if ((9 <=? x) && (x <=? 13) || (28 <=? x) && (x <=? 32))%N then 1%nat
      else match rest with
      | String b rest' =>
          let y := byte_of b in
          if ((x =? 194) && ((y =? 133) || (y =? 160)))%N then 2%nat
          else match rest' with
          | String c _ =>
              let z := byte_of c in
              if ((x =? 225) && (y =? 154) && (z =? 128)
                  || (x =? 226) && (y =? 128)
                     && ((128 <=? z) && (z <=? 138) || (z =? 168) || (z =? 169) || (z =? 175))
                  || (x =? 226) && (y =? 129) && (z =? 159)
                  || (x =? 227) && (y =? 128) && (z =? 128))%N then 3%nat
              else 0%nat
          | EmptyString => 0%nat
          end
      | EmptyString => 0%nat
      end
  | EmptyString => 0%nat
  end.

Fixpoint lstrip_fuel (fuel : nat) (s : string) : string :=
  match fuel with
  | O => s
  | S fuel' =>
      match space_prefix s with
      | O => s
      | n => lstrip_fuel fuel' (drop n s)
      end
  end.

Definition lstrip (s : string) : string := lstrip_fuel (String.length s) s.

Fixpoint rev_string (acc s : string) : string :=
  match s with
  | EmptyString => acc
  | String c s' => rev_string (String c acc) s'
  end.

(** The same characters met from the end of the string: the bytes of one
    character, last byte first. *)
Definition space_suffix (r : string) : nat :=
  match r with
  | String c rest =>
      let z := byte_of c in
      if ((9 <=? z) && (z <=? 13) || (28 <=? z) && (z <=? 32))%N then 1%nat
      else match rest with
      | String b rest' =>
          let y := byte_of b in
          if ((y =? 194) && ((z =? 133) || (z =? 160)))%N then 2%nat
          else match rest' with
          | String a _ =>
              if Nat.eqb (space_prefix (String a (String b (String c EmptyString)))) 3
              then 3%nat else 0%nat
          | EmptyString => 0%nat
          end
      | EmptyString => 0%nat
      end
  | EmptyString => 0%nat
  end.

Fixpoint rstrip_rev_fuel (fuel : nat) (r : string) : string :=
  match fuel with
  | O => r
  | S fuel' =>
      match space_suffix r with
      | O => r
      | n => rstrip_rev_fuel fuel' (drop n r)
      end
  end.

Definition rstrip (s : string) : string :=
  rev_string EmptyString
    (rstrip_rev_fuel (String.length s) (rev_string EmptyString s)).

(** [s.strip()]. *)
Definition strip (s : string) : string := rstrip (lstrip s).

(** ** Numbers and their formatting *)

(** Decimal digits of a natural number, without sign. *)
Definition digits (n : Z) : string :=
  NilZero.string_of_uint (N.to_uint (Z.to_N n)).

Fixpoint zeros (n : nat) : string :=
  match n with
  | O => EmptyString
  | S n' => String "0" (zeros n')
  end.

(** [digits n], padded with zeros on the left to at least [w] characters
    (the [%0wd] of [isoformat], and the digits before a decimal point). *)
Definition zero_pad (w : nat) (n : Z) : string :=
  let d := digits n in
  zeros (w - String.length d) ++ d.

(** The [,] option of a format spec: a comma before every group of three
    digits, counted from the right. [r] is the digit string reversed. *)
Fixpoint group_rev (fuel : nat) (r : string) : string :=
  match fuel with
  | O => r
  | S fuel' =>
      match r with
      | String a (String b (String c (String d rest))) =>
          String a (String b (String c (String "," (group_rev fuel' (String d rest)))))
      | _ => r
      end
  end.

Definition group_thousands (d : string) : string :=
  rev_string EmptyString (group_rev (String.length d) (rev_string EmptyString d)).

(** [m * 2^e * 10^p] rounded to the nearest integer, ties to even: the
    correctly rounded value Python prints for a finite binary64 number. *)
Definition scaled_round (m : positive) (e : Z) (p : nat) : Z :=
  let num := Z.pos m * 10 ^ Z.of_nat p in
  if 0 <=? e then num * 2 ^ e
  else
    let den := 2 ^ (- e) in
    let q := num / den in
    let r := num mod den in
    if 2 * r <? den then q
    else if den <? 2 * r then q + 1
    else if Z.even q then q else q + 1.

(** The digits of [n / 10^p] in fixed notation with [p] decimals. *)
Definition fixed_digits (grouping : bool) (p : nat) (n : Z) : string :=
  let d := zero_pad (S p) n in
  let k := (String.length d - p)%nat in
  let int_part := substring 0 k d in
  let int_part := if grouping then group_thousands int_part else int_part in
  match p with
  | O => int_part
  | _ => int_part ++ "." ++ substring k p d
  end.

Definition sign_text (s : bool) : string := if s then "-" else "".

(** [format(x, ".pf")] and [format(x, ",.pf")] on a float. *)
Definition format_f (grouping : bool) (p : nat) (x : float) : string :=
  match Prim2SF x with
  | S754_nan => "nan"
  | S754_infinity s => sign_text s ++ "inf"
  | S754_zero s => sign_text s ++ fixed_digits grouping p 0
  | S754_finite s m e => sign_text s ++ fixed_digits grouping p (scaled_round m e p)
  end.

(** [float(z)] on an int: the nearest binary64 number, ties to even;
    [OverflowError] beyond the largest finite one. *)
Definition float_of_int (z : Z) : result float :=
  match binary_normalize prec emax z 0 false with
  | S754_infinity _ => inl (Exn "OverflowError" "int too large to convert to float")
  | sf => inr (SF2Prim sf)
  end.

(** [format(v, spec)] for the specs [",.2f"] and [",.0f"] of the metric
    columns: floats, ints and bools are formatted as floats; every other
    type rejects the spec. *)
Definition format_value_f (spec : string) (p : nat) (v : pyval) : result string :=
  match v with
  | PyFloat f => inr (format_f true p f)
  | PyInt z =>
      match float_of_int z with
      | inl e => inl e
      | inr f => inr (format_f true p f)
      end
  | PyBool b => inr (format_f true p (if b then PrimFloat.one else PrimFloat.zero))
  | PyStr _ =>
      inl (Exn "ValueError" ("Unknown format code 'f' for object of type 'str'"))
  | _ =>
      inl (Exn "TypeError"
               ("unsupported format string passed to " ++ type_name v ++ ".__format__"))
  end.

(** ** Dates *)

(** A [datetime.date] as its day number, 0 being 1970-01-01. *)
Definition date := Z.

(** Year, month and day of a day number in the proleptic Gregorian calendar. *)
Definition civil (d : date) : Z * Z * Z :=
  let z := d + 719468 in
  let era := z / 146097 in
  let doe := z - era * 146097 in
  let yoe := (doe - doe / 1460 + doe / 36524 - doe / 146096) / 365 in
  let doy := doe - (365 * yoe + yoe / 4 - yoe / 100) in
  let mp := (5 * doy + 2) / 153 in
  let day := doy - (153 * mp + 2) / 5 + 1 in
  let month := if mp <? 10 then mp + 3 else mp - 9 in
  let year := yoe + era * 400 + (if month <=? 2 then 1 else 0) in
  (year, month, day).

(** [d.isoformat()]: YYYY-MM-DD. *)
Definition isoformat (d : date) : string :=
  let '(y, m, dd) := civil d in
  zero_pad 4 y ++ "-" ++ zero_pad 2 m ++ "-" ++ zero_pad 2 dd.

(** [d - datetime.timedelta(days=n)]. *)
Definition minus_days (d : date) (n : Z) : date := d - n.

(** ** Effects: an ordered log and Python exceptions *)

(** A computation that appends entries of type [L] to a log and either
    returns a value or raises. What was logged before an exception stays:
    a widget already sent to the page is not taken back. *)
Definition eff (L A : Type) : Type := (list L * result A)%type.

Definition ret {L A : Type} (a : A) : eff L A := ([], inr a).

Definition bind {L A B : Type} (m : eff L A) (k : A -> eff L B) : eff L B :=
  match m with
  | (out, inl e) => (out, inl e)
  | (out, inr a) => let (out', r) := k a in ((out ++ out')%list, r)
  end.

Definition raise {L A : Type} (e : exn) : eff L A := ([], inl e).

(** The value of a call that logs nothing. *)
Definition lift {L A : Type} (r : result A) : eff L A := ([], r).

Definition emit {L : Type} (x : L) : eff L unit := ([x], inr tt).

(** [try: m  except Exception as e: handler e]. *)
Definition try_except {L A : Type} (m : eff L A) (handler : exn -> eff L A) : eff L A :=
  match m with
  | (out, inl e) => let (out', r) := handler e in ((out ++ out')%list, r)
  | (out, inr a) => (out, inr a)
  end.

Declare Scope eff_scope.
Delimit Scope eff_scope with eff.
Notation "x <- m ;; k" := (bind m (fun x => k))
  (at level 61, m at next level, right associativity) : eff_scope.
Notation "m ;; k" := (bind m (fun _ => k))
  (at level 61, right associativity) : eff_scope.
Local Open Scope eff_scope.

(** [for x in l: body x]. *)
Fixpoint for_each {L A : Type} (l : list A) (body : A -> eff L unit) : eff L unit :=
  match l with
  | [] => ret tt
  | x :: rest => body x ;; for_each rest body
  end.

(** ** Page output *)

(** The text of an f-string: literal parts and replacement fields [{v}],
    which Python fills with [str(v)]. *)
Inductive piece : Type :=
  | Lit (s : string)
  | Field (v : pyval).

Definition text := list piece.

(** [str(v)] where it is a plain spelling (floats and containers print
    through [repr], which is not modelled). *)
Definition py_str (v : pyval) : option string :=
  match v with
  | PyNone => Some "None"
  | PyBool b => Some (if b then "True" else "False")
  | PyInt z => Some (if z <? 0 then "-" ++ digits (- z) else digits z)
  | PyStr s => Some s
  | _ => None
  end.

Fixpoint text_str (t : text) : option string :=
  match t with
  | [] => Some ""
  | Lit s :: t' => option_map (append s) (text_str t')
  | Field v :: t' =>
      match py_str v, text_str t' with
      | Some s, Some s' => Some (s ++ s')
      | _, _ => None
      end
  end.

Definition image := string.

(** The figure handed to [st.pyplot]: the closing-price line over the
    index, its legend label and title, and the background picture. *)
Record figure : Type := Figure {
  fig_background : option image;
  fig_x : list Z;
  fig_y : list float;
  fig_label : string;
  fig_title : string;
  fig_xlabel : string;
  fig_ylabel : string
}.

(** One [st.*] call. Columns and expanders hold what was rendered in them. *)
Inductive event : Type :=
  | StMarkdown (body : text)
  | StCaption (body : text)
  | StSubheader (body : text)
  | StWarning (body : text)
  | StError (body : text)
  | StInfo (body : text)
  | StWrite (v : pyval)
  | StImage (img : image) (width : Z)
  | StPyplot (fig : figure)
  | StMetric (label : string) (value : text) (delta : option text)
  | StColumns (widths : list Z) (cols : list (list event))
  | StExpander (label : string) (body : list event).

Definition ui (A : Type) : Type := eff event A.

Definition st_markdown (t : text) : ui unit := emit (StMarkdown t).
Definition st_caption (t : text) : ui unit := emit (StCaption t).
Definition st_subheader (t : text) : ui unit := emit (StSubheader t).
Definition st_warning (t : text) : ui unit := emit (StWarning t).
Definition st_error (t : text) : ui unit := emit (StError t).
Definition st_info (t : text) : ui unit := emit (StInfo t).
Definition st_write (v : pyval) : ui unit := emit (StWrite v).
Definition st_image (img : image) (width : Z) : ui unit := emit (StImage img width).
Definition st_pyplot (fig : figure) : ui unit := emit (StPyplot fig).
Definition st_metric (label : string) (value : text) (delta : option text) : ui unit :=
  emit (StMetric label value delta).

(** [with st.expander(label): body]. *)
Definition st_expander (label : string) (body : ui unit) : ui unit :=
  let (out, r) := body in ([StExpander label out], r).

(** The [with col:] blocks of one [st.columns] row, run left to right; a
    block that raises leaves the columns after it empty. *)
Fixpoint run_columns (blocks : list (ui unit)) : list (list event) * result unit :=
  match blocks with
  | [] => ([], inr tt)
  | (out, inl e) :: rest => (out :: map (fun _ => []) rest, inl e)
  | (out, inr _) :: rest => let (outs, r) := run_columns rest in (out :: outs, r)
  end.

Definition st_columns (widths : list Z) (blocks : list (ui unit)) : ui unit :=
  let (outs, r) := run_columns blocks in ([StColumns widths outs], r).

(** ** The outside world of one render cycle *)

(** One row of a price history ([DataFrame]): the index and the columns. *)
Record bar : Type := Bar {
  Date : Z;
  Open : float;
  High : float;
  Low : float;
  Close : float;
  Volume : Z
}.

Definition PriceHistory := list bar.

(** [hist.empty]: no rows. *)
Definition empty (hist : PriceHistory) : bool :=
  match hist with
  | [] => true
  | _ :: _ => false
  end.

Record request : Type := Request {
  url : pyval;
  params : list (string * string);
  timeout : Z
}.

Record response : Type := Response {
  status_code : Z;
  content : string;
  json : result pyval
}.

(** What each external call answers. [st.cache_data] memoises the three
    fetch functions by their arguments; with one answer per request the
    memoisation does not change the values the script sees.
    - [yf_info t]: [yf.Ticker(t).get_info()];
    - [yf_history t p]: [yf.Ticker(t).history(period=p)];
    - [requests_get r]: [requests.get], a response or a transport error;
    - [image_open c]: [Image.open(BytesIO(c))];
    - [draw fig]: matplotlib and mplcyberpunk building the figure;
    - [today]: [datetime.date.today()];
    - [fromtimestamp v]:
      [datetime.datetime.fromtimestamp(v).strftime("%b %d, %Y")]. *)
Record world : Type := World {
  yf_info : string -> result dict;
  yf_history : string -> string -> result PriceHistory;
  requests_get : request -> result response;
  image_open : string -> result image;
  draw : figure -> result unit;
  today : date;
  fromtimestamp : pyval -> result string
}.

(** The sidebar controls, and the ticker list parsed from its text input. *)
Record config : Type := Config {
  tickers : list string;
  period : string;
  refresh_rate : Z;
  finnhub_api : string;
  bg_image : option image
}.

(** ** Cached data functions *)

Definition get_stock_data (w : world) (ticker period : string) : result PriceHistory :=
  yf_history w ticker period.

Definition get_info_cached (w : world) (ticker : string) : result dict :=
  yf_info w ticker.

(** A network computation logs the requests it sends. *)
Definition net (A : Type) : Type := eff request A.

Definition http_get (w : world) (r : request) : net response :=
  ([r], requests_get w r).

(** [v.get(k, default)]: only a dict has the method. *)
Definition attr_get_default {L : Type} (v : pyval) (k : string) (default : pyval)
  : eff L pyval :=
  match v with
  | PyDict d => ret (dict_get_default d k default)
  | _ => raise (AttributeError v "get")
  end.

Definition attr_get {L : Type} (v : pyval) (k : string) : eff L pyval :=
  attr_get_default v k PyNone.

(** The characters of a string: a UTF-8 continuation byte (0x80..0xBF)
    stays with the byte before it. *)
Fixpoint chars (s : string) : list string :=
  match s with
  | EmptyString => []
  | String c s' =>
      match chars s' with
      | String c' h :: t =>
          if ((128 <=? byte_of c') && (byte_of c' <=? 191))%N
          then String c (String c' h) :: t
          else String c EmptyString :: String c' h :: t
      | rest => String c EmptyString :: rest
      end
  end.

(** [for item in v]: the items of a list, the keys of a dict, the
    characters of a string. *)
Definition py_iter {L : Type} (v : pyval) : eff L (list pyval) :=
  match v with
  | PyList l => ret l
  | PyDict d => ret (map (fun kv => PyStr (fst kv)) d)
  | PyStr s => ret (map PyStr (chars s))
  | _ => raise (Exn "TypeError" ("'" ++ type_name v ++ "' object is not iterable"))
  end.

(** [[item for item in items if item.get("headline") and item.get("url")]]. *)
Fixpoint with_headline_and_url {L : Type} (items : list pyval) : eff L (list pyval) :=
  match items with
  | [] => ret []
  | item :: rest =>
      headline <- attr_get item "headline" ;;
      cond <- (if truthy headline then attr_get item "url" else ret headline) ;;
      kept <- with_headline_and_url rest ;;
      ret (if truthy cond then item :: kept else kept)
  end.

Definition FINNHUB_NEWS_URL : string := "https://finnhub.io/api/v1/company-news".

(** The request [get_company_news] sends for a symbol and a key. *)
Definition news_request (w : world) (symbol api_key : string) : request :=
  let today := today w in
  let past := minus_days today 30 in
  let params := [("symbol", symbol); ("from", isoformat past);
                 ("to", isoformat today); ("token", api_key)] in
  Request (PyStr FINNHUB_NEWS_URL) params 10.

Definition get_company_news (w : world) (symbol api_key : string) : net (list pyval) :=
  if negb (truthy (PyStr api_key)) then ret []
  else
    try_except
      (response <- http_get w (news_request w symbol api_key) ;;
       if status_code response =? 200 then
         data <- lift (json response) ;;
         items <- py_iter data ;;
         with_headline_and_url items
       else ret [])
      (fun _ => ret []).

(** ** Main dashboard: the steps for one ticker *)

(** The logo URL: the explicit field, else a guess from the website's domain. *)
Definition resolve_logo_url (info : dict) : ui pyval :=
  let logo_url := dict_get info "logo_url" in
  if negb (truthy logo_url) then
    match dict_get_default info "website" (PyStr "") with
    | PyStr site =>
        let domain := split_first "/" (remove_all "http://" (remove_all "https://" site)) in
        if truthy (PyStr domain)
        then ret (PyStr ("https://logo.clearbit.com/" ++ domain))
        else ret logo_url
    | v => raise (AttributeError v "replace")
    end
  else ret logo_url.

(** The logo column: any failure of the fetch or of decoding is dropped. *)
Definition logo_column (w : world) (logo_url : pyval) : ui unit :=
  if truthy logo_url then
    try_except
      (r <- lift (requests_get w (Request logo_url [] 5)) ;;
       if status_code r =? 200 then
         img <- lift (image_open w (content r)) ;;
         st_image img 100
       else ret tt)
      (fun _ => ret tt)
  else ret tt.

Definition company_header (w : world) (info : dict) (ticker : string) : ui unit :=
  logo_url <- resolve_logo_url info ;;
  st_columns [1; 4]
    [ logo_column w logo_url;
      (st_markdown [Lit "### "; Field (dict_get_default info "shortName" (PyStr ticker))] ;;
       st_caption [Field (dict_get_default info "sector" (PyStr "N/A")); Lit " | ";
                   Field (dict_get_default info "industry" (PyStr "N/A"))]) ].

Definition price_chart (cfg : config) (w : world) (ticker : string) (hist : PriceHistory)
  : ui unit :=
  let fig := Figure (bg_image cfg) (map Date hist) (map Close hist) ticker
                    (ticker ++ " Stock Price (" ++ period cfg ++ ")")
                    "Date" "Price ($)" in
  lift (draw w fig) ;;
  st_pyplot fig.

(** [seq.iloc[i]], negative positions counting from the end. *)
Definition iloc {L A : Type} (l : list A) (i : Z) : eff L A :=
  let n := Z.of_nat (List.length l) in
  let j := if i <? 0 then n + i else i in
  match (if (0 <=? j) && (j <? n) then nth_error l (Z.to_nat j) else None) with
  | Some x => ret x
  | None => raise (Exn "IndexError" "single positional indexer is out-of-bounds")
  end.

(** The fourth metric column. *)
Definition daily_change (w : world) (ticker : string) : ui unit :=
  hist_5d <- lift (get_stock_data w ticker "5d") ;;
  if 2 <=? Z.of_nat (List.length hist_5d) then
    last <- iloc (map Close hist_5d) (-1) ;;
    prev <- iloc (map Close hist_5d) (-2) ;;
    let change := (last - prev)%float in
    prev' <- iloc (map Close hist_5d) (-2) ;;
    let pct := (change / prev' * 100)%float in
    st_metric "Daily Change" [Lit ("$" ++ format_f false 2 change)]
              (Some [Lit (format_f false 2 pct ++ "%")])
  else ret tt.

(** [f"${v:spec}" if v else "N/A"]. *)
Definition money_or_na (spec : string) (p : nat) (v : pyval) : ui text :=
  if truthy v then
    s <- lift (format_value_f spec p v) ;;
    ret [Lit ("$" ++ s)]
  else ret [Lit "N/A"].

(** The first three metric columns. *)
Definition price_column (info : dict) : ui unit :=
  let price := dict_get info "currentPrice" in
  v <- money_or_na ",.2f" 2 price ;;
  st_metric "Current Price" v None.

Definition cap_column (info : dict) : ui unit :=
  let cap := dict_get info "marketCap" in
  v <- money_or_na ",.0f" 0 cap ;;
  st_metric "Market Cap" v None.

Definition range_column (info : dict) : ui unit :=
  let high := dict_get info "fiftyTwoWeekHigh" in
  let low := dict_get info "fiftyTwoWeekLow" in
  st_metric "52w High / Low" [Lit "$"; Field high; Lit " / $"; Field low] None.

Definition metrics (w : world) (info : dict) (ticker : string) : ui unit :=
  st_columns [1; 1; 1; 1]
    [ price_column info; cap_column info; range_column info; daily_change w ticker ].

Definition newline : string := String (ascii_of_nat 10) EmptyString.
Definition dquote : string := String (ascii_of_nat 34) EmptyString.

Fixpoint spaces (n : nat) : string :=
  match n with
  | O => EmptyString
  | S n' => String " " (spaces n')
  end.

(** The style block written before the expander, line by line as in the
    source (16 columns of indentation, 12 before the closing quotes). *)
Definition EXPANDER_STYLE : string :=
  newline
  ++ String.concat EmptyString
       (map (fun l => spaces 16 ++ l ++ newline)
          [ "<style>";
            "div[data-testid=" ++ dquote ++ "stExpander" ++ dquote ++ "] {";
            "    border: 1px solid #00ffff !important;";
            "    border-radius: 10px !important;";
            "    box-shadow: 0 0 15px #00ffff80;";
            "    background-color: rgba(0, 20, 30, 0.6) !important;";
            "}";
            "div[data-testid=" ++ dquote ++ "stExpander" ++ dquote ++ "] > div:first-child {";
            "    color: #00f5ff !important;";
            "    font-weight: bold !important;";
            "    font-size: 1rem !important;";
            "    text-shadow: 0 0 8px #00ffff;";
            "}";
            "</style>" ])
  ++ spaces 12.

Definition NO_DESCRIPTION : string := "No company description available.".
Definition EXPANDER_LABEL : string := "📘 Company Info (click to expand)".

(** [summary and summary.strip()], as the condition of an [if]. *)
Definition summary_shown (summary : pyval) : ui bool :=
  if truthy summary then
    match summary with
    | PyStr s => ret (truthy (PyStr (strip s)))
    | v => raise (AttributeError v "strip")
    end
  else ret false.

Definition company_info (info : dict) : ui unit :=
  let summary := dict_get_default info "longBusinessSummary" (PyStr NO_DESCRIPTION) in
  shown <- summary_shown summary ;;
  if shown then
    st_markdown [Lit EXPANDER_STYLE] ;;
    st_expander EXPANDER_LABEL (st_write summary)
  else st_info [Lit NO_DESCRIPTION].

Definition KEY_PROMPT : string :=
  "Enter your Finnhub API key in the sidebar to enable company news.".

Definition news_card (w : world) (article : pyval) : ui unit :=
  stamp <- attr_get_default article "datetime" (PyInt 0) ;;
  t_str <- lift (fromtimestamp w stamp) ;;
  link <- attr_get article "url" ;;
  headline <- attr_get article "headline" ;;
  source <- attr_get_default article "source" (PyStr "Unknown") ;;
  st_markdown [Lit "<div class='news-card'><a href='"; Field link;
               Lit "' target='_blank'><b>"; Field headline;
               Lit "</b></a><br><small>"; Field source;
               Lit (" | " ++ t_str ++ "</small></div>")].

Definition news_section (cfg : config) (w : world) (ticker : string) : ui unit :=
  st_subheader [Lit ("📰 " ++ ticker ++ " Recent News")] ;;
  news <- (if negb (truthy (PyStr (finnhub_api cfg))) then
             st_info [Lit KEY_PROMPT] ;;
             ret []
           else lift (snd (get_company_news w ticker (finnhub_api cfg)))) ;;
  if truthy (PyList news) then
    for_each (firstn 5 news) (news_card w)
  else if truthy (PyStr (finnhub_api cfg)) then st_info [Lit "No recent news available."]
  else ret tt.

(** The body of the [try] for one ticker. *)
Definition ticker_body (cfg : config) (w : world) (ticker : string) : ui unit :=
  info <- lift (get_info_cached w ticker) ;;
  hist <- lift (get_stock_data w ticker (period cfg)) ;;
  if empty hist then
    st_warning [Lit ("No data available for " ++ ticker)]
  else
    company_header w info ticker ;;
    price_chart cfg w ticker hist ;;
    metrics w info ticker ;;
    company_info info ;;
    st_markdown [Lit "---"] ;;
    news_section cfg w ticker ;;
    st_markdown [Lit "<hr style='border: 1px solid #00f5ff; opacity: 0.3;'>"].

(** One iteration of the loop: the body under its [except Exception]. *)
Definition render_ticker (cfg : config) (w : world) (ticker : string) : ui unit :=
  try_except (ticker_body cfg w ticker)
    (fun e => st_error [Lit ("Could not load info for " ++ ticker ++ ": " ++ exn_text e)]).

Definition main_dashboard (cfg : config) (w : world) (tickers : list string) : ui unit :=
  for_each tickers (render_ticker cfg w).

(** ** Auto-refresh *)






(** ** Sample data *)

Definition bar_at (day : Z) (c : float) : bar := Bar day c c c c 0.

Definition sample_week : PriceHistory :=
  [bar_at 0 100; bar_at 1 102; bar_at 2 101; bar_at 3 105; bar_at 4 103].

(** A company record without the 52-week fields and without a summary. *)
Definition sample_info : dict :=
  [("shortName", PyStr "Apple Inc."); ("currentPrice", PyFloat 150);
   ("marketCap", PyInt 3000000000000)].

(** A world in which FAKE123 is unknown to the provider, EMPTY has no rows,
    NEWCO has a single row in its 5-day history, the news provider answers
    429 and every other request fails in transport. *)
Definition sample_world : world :=
  World
    (fun t => if String.eqb t "FAKE123"
              then inl (Exn "HTTPError" "404 Client Error: Not Found")
              else inr sample_info)
    (fun t p => if String.eqb t "EMPTY" then inr []
                else if String.eqb t "NEWCO" && String.eqb p "5d" then inr [bar_at 4 12.5]
                else inr sample_week)
    (fun r => match url r with
              | PyStr u => if String.eqb u FINNHUB_NEWS_URL
                           then inr (Response 429 "" (inl (Exn "JSONDecodeError" "Expecting value")))
                           else inl (Exn "ConnectionError" "unreachable")
              | _ => inl (Exn "MissingSchema" "Invalid URL")
              end)
    (fun c => inr c)
    (fun _ => inr tt)
    20761
    (fun _ => inr "Nov 04, 2026").

Definition sample_config : config :=
  Config ["AAPL"; "FAKE123"; "NVDA"] "1mo" 60 "" None.

(** ** Ticker parsing *)

(** Whether the character occurs in the string. *)
Fixpoint has_char (c : ascii) (s : string) : bool :=
  match s with
  | EmptyString => false
  | String c' s' => Ascii.eqb c' c || has_char c s'
  end.

(** [s.split(sep)] for a one-character separator: always at least one piece. *)
Fixpoint split (sep : ascii) (s : string) : list string :=
  match s with
  | EmptyString => [EmptyString]
  | String c s' =>
      if Ascii.eqb c sep then EmptyString :: split sep s'
      else match split sep s' with
           | piece :: rest => String c piece :: rest
           | [] => [String c EmptyString]
           end
  end.

(** [[t.strip().upper() for t in tickers_input.split(",") if t.strip()]].
    [upper] stands for [str.upper], Python's Unicode upper-casing. *)
Definition parse_tickers (upper : string -> string) (tickers_input : string) : list string :=
  map (fun t => upper (strip t))
      (filter (fun t => truthy (PyStr (strip t))) (split "," tickers_input)).

(** [str.upper] on ASCII text: the letters a..z, other bytes unchanged. *)
Fixpoint ascii_upper (s : string) : string :=
  match s with
  | EmptyString => EmptyString
  | String c s' =>
      let x := byte_of c in
      String (if ((97 <=? x) && (x <=? 122))%N then ascii_of_N (x - 32) else c)
             (ascii_upper s')
  end.

(** ** Chart background *)

(** The image files shipped with the app: [Image.open(path)]. *)
Record assets : Type := Assets { image_file : string -> result image }.

(** [uploaded_bg]: the uploader is asked only under "Upload Your Own". *)
Definition uploaded_bg (bg_choice : string) (uploader : option string) : option string :=
  if String.eqb bg_choice "Upload Your Own" then uploader else None.

(** The selected background: an uploaded picture is opened outside any
    [try]; a preset that cannot be opened gives no background. *)
Definition load_bg_image (a : assets) (w : world) (bg_choice : string)
           (uploaded : option string) : ui (option image) :=
  match uploaded with
  | Some file =>
      img <- lift (image_open w file) ;;
      ret (Some img)
  | None =>
      try_except
        (if String.eqb bg_choice "Beach 1" then
           img <- lift (image_file a "images/1.jpg") ;;
           ret (Some img)
         else if String.eqb bg_choice "Beach 2" then
           img <- lift (image_file a "images/2.jpg") ;;
           ret (Some img)
         else ret None)
        (fun _ => ret None)
  end.

(** ** Predicates on values and events *)

Definition is_dict (v : pyval) : bool :=
  match v with
  | PyDict _ => true
  | _ => false
  end.

(** The news filter's condition on one record. *)
Definition has_headline_and_url (d : dict) : bool :=
  truthy (dict_get d "headline") && truthy (dict_get d "url").

Definition is_error (e : event) : bool :=
  match e with
  | StError _ => true
  | _ => false
  end.

(** A computation is quiet when it renders no [st.error] at the top level. *)
Definition quiet {A : Type} (m : eff event A) : Prop := filter is_error (fst m) = [].

(** Whether a computation ended in an exception. *)
Definition raises {L A : Type} (m : eff L A) : bool :=
  match snd m with
  | inl _ => true
  | inr _ => false
  end.

(** A computation that returns normally. *)
Definition returns {L A : Type} (m : eff L A) : Prop :=
  exists out a, m = (out, inr a).

(** A value the money formats accept: a falsy one (shown as N/A), a float,
    or an int within the range of floats. *)
Definition price_like (v : pyval) : Prop :=
  truthy v = false
  \/ (exists f, v = PyFloat f)
  \/ (exists z f, v = PyInt z /\ float_of_int z = inr f).

(** A value that is falsy or a text. *)
Definition text_like (v : pyval) : Prop :=
  truthy v = false \/ exists s, v = PyStr s.

(** ** More sample data *)

Definition sample_article (headline link : string) : dict :=
  [("headline", PyStr headline); ("url", PyStr link); ("datetime", PyInt 1762214400)].

(** The sample world with a news provider that answers 200. *)
Definition news_world (data : result pyval) : world :=
  World (yf_info sample_world) (yf_history sample_world)
        (fun r => inr (Response 200 "" data))
        (image_open sample_world) (draw sample_world) (today sample_world)
        (fromtimestamp sample_world).

Definition keyed_config : config :=
  Config ["AAPL"] "1mo" 60 "secret" None.

Definition sample_assets : assets :=
  Assets (fun path => if String.eqb path "images/1.jpg" then inr "beach"
                      else inl (Exn "FileNotFoundError" path)).

(** * Properties *)

(** ** The loop and its exception handler *)

Lemma render_ticker_returns (cfg : config) (w : world) (ticker : string) :
  snd (render_ticker cfg w ticker) = inr tt.
Proof.
  unfold render_ticker, try_except.
  destruct (ticker_body cfg w ticker) as [out [e | []]]; reflexivity.
Qed.

Lemma main_dashboard_returns (cfg : config) (w : world) (ts : list string) :
  snd (main_dashboard cfg w ts) = inr tt.
Proof.
  unfold main_dashboard.
  induction ts as [| t ts IH]; simpl; [reflexivity |].
  pose proof (render_ticker_returns cfg w t) as Ht.
  destruct (render_ticker cfg w t) as [out r]; simpl in Ht; subst r; simpl.
  destruct (for_each ts (render_ticker cfg w)) as [out' r']; simpl in *.
  exact IH.
Qed.

Lemma main_dashboard_cons (cfg : config) (w : world) (t : string) (ts : list string) :
  main_dashboard cfg w (t :: ts) =
  ((fst (render_ticker cfg w t) ++ fst (main_dashboard cfg w ts))%list, inr tt).
Proof.
  pose proof (render_ticker_returns cfg w t) as Ht.
  pose proof (main_dashboard_returns cfg w ts) as Hts.
  unfold main_dashboard in *; simpl.
  destruct (render_ticker cfg w t) as [out r]; simpl in *; subst r; simpl.
  destruct (for_each ts (render_ticker cfg w)) as [out' r']; simpl in *; subst r'.
  reflexivity.
Qed.

Lemma main_dashboard_app (cfg : config) (w : world) (before after : list string) :
  main_dashboard cfg w (before ++ after) =
  ((fst (main_dashboard cfg w before) ++ fst (main_dashboard cfg w after))%list, inr tt).
Proof.
  induction before as [| t ts IH].
  - simpl. pose proof (main_dashboard_returns cfg w after) as H.
    destruct (main_dashboard cfg w after) as [out r]; simpl in *; subst r; reflexivity.
  - rewrite <- app_comm_cons, !main_dashboard_cons, IH; simpl.
    now rewrite app_assoc.
Qed.

(** A ticker in the middle of the list: the page is the page of the tickers
    before it, then its own output, then the page of the tickers after it. *)
Lemma main_dashboard_middle (cfg : config) (w : world)
      (before after : list string) (t : string) :
  main_dashboard cfg w (before ++ t :: after) =
  ((fst (main_dashboard cfg w before)
    ++ fst (render_ticker cfg w t)
    ++ fst (main_dashboard cfg w after))%list, inr tt).
Proof.
  now rewrite main_dashboard_app, main_dashboard_cons.
Qed.

(** ** Positions from the end *)

Lemma last_two {A : Type} (l : list A) :
  (2 <= List.length l)%nat -> exists older prev last, l = (older ++ [prev; last])%list.
Proof.
  intros Hlen.
  destruct (exists_last (l := l)) as [l1 [last ->]].
  { intros ->; simpl in Hlen; lia. }
  rewrite length_app in Hlen; simpl in Hlen.
  destruct (exists_last (l := l1)) as [older [prev ->]].
  { intros ->; simpl in Hlen; lia. }
  exists older, prev, last. now rewrite <- app_assoc.
Qed.

Lemma iloc_last {L A : Type} (older : list A) (prev last : A) :
  @iloc L A (older ++ [prev; last]) (-1) = ret last.
Proof.
  unfold iloc. rewrite length_app; simpl List.length.
  replace (-1 <? 0) with true by reflexivity.
  replace (Z.of_nat (List.length older + 2) + -1) with (Z.of_nat (List.length older + 1)) by lia.
  replace ((0 <=? Z.of_nat (List.length older + 1))
           && (Z.of_nat (List.length older + 1) <? Z.of_nat (List.length older + 2)))
    with true by (symmetry; apply andb_true_iff; split; [apply Z.leb_le | apply Z.ltb_lt]; lia).
  rewrite Nat2Z.id, nth_error_app2 by lia.
  replace (List.length older + 1 - List.length older)%nat with 1%nat by lia.
  reflexivity.
Qed.

Lemma iloc_prev {L A : Type} (older : list A) (prev last : A) :
  @iloc L A (older ++ [prev; last]) (-2) = ret prev.
Proof.
  unfold iloc. rewrite length_app; simpl List.length.
  replace (-2 <? 0) with true by reflexivity.
  replace (Z.of_nat (List.length older + 2) + -2) with (Z.of_nat (List.length older)) by lia.
  replace ((0 <=? Z.of_nat (List.length older))
           && (Z.of_nat (List.length older) <? Z.of_nat (List.length older + 2)))
    with true by (symmetry; apply andb_true_iff; split; [apply Z.leb_le | apply Z.ltb_lt]; lia).
  rewrite Nat2Z.id, nth_error_app2 by lia.
  rewrite Nat.sub_diag. reflexivity.
Qed.

Lemma daily_change_two (w : world) (ticker : string)
      (older : PriceHistory) (prev last : bar) :
  get_stock_data w ticker "5d" = inr (older ++ [prev; last])%list ->
  daily_change w ticker =
  ([StMetric "Daily Change"
      [Lit ("$" ++ format_f false 2 (Close last - Close prev)%float)]
      (Some [Lit (format_f false 2
                    ((Close last - Close prev) / Close prev * 100)%float ++ "%")])],
   inr tt).
Proof.
  intros Hfetch. unfold daily_change. rewrite Hfetch.
  cbn [lift bind].
  replace (2 <=? Z.of_nat (List.length (older ++ [prev; last])))
    with true by (symmetry; apply Z.leb_le; rewrite length_app; simpl; lia).
  rewrite map_app; cbn [map].
  rewrite iloc_last, iloc_prev. reflexivity.
Qed.

(** C1. With at least two rows in the 5-day history, the Daily Change metric
    shows the last close minus the close before it, to two decimals, and as
    delta that change divided by the close before it, times 100, to two
    decimals; for the closes 100, 102, 101, 105, 103 it shows $-2.00 and
    -1.90%. *)
Theorem daily_change_metric_C1 (w : world) (ticker : string) (hist_5d : PriceHistory) :
  get_stock_data w ticker "5d" = inr hist_5d ->
  (2 <= List.length hist_5d)%nat ->
  (exists older prev last,
      hist_5d = (older ++ [prev; last])%list
      /\ daily_change w ticker =
         ([StMetric "Daily Change"
             [Lit ("$" ++ format_f false 2 (Close last - Close prev)%float)]
             (Some [Lit (format_f false 2
                           ((Close last - Close prev) / Close prev * 100)%float ++ "%")])],
          inr tt))
  /\ (map Close hist_5d = [100; 102; 101; 105; 103]%float ->
      daily_change w ticker =
      ([StMetric "Daily Change" [Lit "$-2.00"] (Some [Lit "-1.90%"])], inr tt)).
Proof.
  intros Hfetch Hlen.
  destruct (last_two hist_5d Hlen) as [older [prev [last ->]]].
  pose proof (daily_change_two w ticker older prev last Hfetch) as Hshown.
  split.
  - exists older, prev, last. split; [reflexivity | exact Hshown].
  - intros Hcloses. rewrite Hshown.
    rewrite map_app in Hcloses; cbn [map] in Hcloses.
    assert (Hpair : Close prev = 105%float /\ Close last = 103%float).
    { assert (Hthree : List.length (map Close older) = 3%nat).
      { apply (f_equal (@List.length float)) in Hcloses.
        rewrite length_app in Hcloses; simpl in Hcloses; lia. }
      destruct (map Close older) as [| a [| b [| c [| d l]]]]; try discriminate Hthree.
      simpl in Hcloses. injection Hcloses as _ _ _ H1 H2. now split. }
    destruct Hpair as [-> ->]. vm_compute. reflexivity.
Qed.

Lemma daily_change_metric_C1_witness :
  (2 <= List.length sample_week)%nat
  /\ daily_change sample_world "AAPL" =
     ([StMetric "Daily Change" [Lit "$-2.00"] (Some [Lit "-1.90%"])], inr tt).
Proof.
  split; [simpl; lia |].
  apply (daily_change_metric_C1 sample_world "AAPL" sample_week);
    [reflexivity | simpl; lia | reflexivity].
Defined.

(** ** Short histories *)

(** C2. With fewer than two rows in the 5-day history the Daily Change
    column renders nothing and returns normally, and the metrics row has an
    empty fourth column. *)
Theorem daily_change_omitted_C2 (w : world) (ticker : string) (hist_5d : PriceHistory) :
  get_stock_data w ticker "5d" = inr hist_5d ->
  (List.length hist_5d < 2)%nat ->
  daily_change w ticker = ([], inr tt)
  /\ forall info, exists c1 c2 c3,
       fst (metrics w info ticker) = [StColumns [1; 1; 1; 1] [c1; c2; c3; []]].
Proof.
  intros Hfetch Hlen.
  assert (Hdc : daily_change w ticker = ([], inr tt)).
  { unfold daily_change. rewrite Hfetch. cbn [lift bind].
    replace (2 <=? Z.of_nat (List.length hist_5d)) with false
      by (symmetry; apply Z.leb_gt; lia).
    reflexivity. }
  split; [exact Hdc |].
  intros info. unfold metrics, st_columns. cbn [run_columns]. rewrite Hdc.
  destruct (price_column info) as [o1 [e1 | u1]]; [now eexists _, _, _ |].
  destruct (cap_column info) as [o2 [e2 | u2]]; [now eexists _, _, _ |].
  destruct (range_column info) as [o3 [e3 | u3]]; now eexists _, _, _.
Qed.

Lemma daily_change_omitted_C2_witness :
  daily_change sample_world "NEWCO" = ([], inr tt).
Proof.
  apply (daily_change_omitted_C2 sample_world "NEWCO" [bar_at 4 12.5]);
    [reflexivity | simpl; lia].
Defined.

(** ** Empty histories and failing tickers *)

(** C3. When the price-history fetch of a ticker returns no rows, the
    iteration renders one warning naming the ticker and nothing else (no
    header, chart, metrics, summary or news, and no error), and the loop goes
    on: the page is that of the tickers before, the warning, then that of the
    tickers after. *)
Theorem empty_history_skipped_C3 (cfg : config) (w : world) (ticker : string) (info : dict) :
  get_info_cached w ticker = inr info ->
  get_stock_data w ticker (period cfg) = inr [] ->
  render_ticker cfg w ticker =
    ([StWarning [Lit ("No data available for " ++ ticker)]], inr tt)
  /\ forall before after,
       main_dashboard cfg w (before ++ ticker :: after) =
       ((fst (main_dashboard cfg w before)
         ++ [StWarning [Lit ("No data available for " ++ ticker)]]
         ++ fst (main_dashboard cfg w after))%list, inr tt).
Proof.
  intros Hinfo Hhist.
  assert (Hone : render_ticker cfg w ticker =
                 ([StWarning [Lit ("No data available for " ++ ticker)]], inr tt)).
  { unfold render_ticker, ticker_body. rewrite Hinfo, Hhist. reflexivity. }
  split; [exact Hone |].
  intros before after. now rewrite main_dashboard_middle, Hone.
Qed.

Lemma empty_history_skipped_C3_witness :
  render_ticker sample_config sample_world "EMPTY" =
    ([StWarning [Lit "No data available for EMPTY"]], inr tt).
Proof.
  apply (empty_history_skipped_C3 sample_config sample_world "EMPTY" sample_info);
    reflexivity.
Defined.

(** C4. When the body of a ticker's iteration raises, the handler keeps
    what the body had rendered, adds one error naming the ticker and the
    exception's text, and returns normally; in the loop the tickers before
    and after are rendered exactly as they are without the failing one. *)
Theorem ticker_exception_contained_C4 (cfg : config) (w : world) (ticker : string)
        (out : list event) (e : exn) :
  ticker_body cfg w ticker = (out, inl e) ->
  render_ticker cfg w ticker =
    ((out ++ [StError [Lit ("Could not load info for " ++ ticker ++ ": " ++ exn_text e)]])%list,
     inr tt)
  /\ forall before after,
       main_dashboard cfg w (before ++ ticker :: after) =
       ((fst (main_dashboard cfg w before)
         ++ (out ++ [StError [Lit ("Could not load info for " ++ ticker ++ ": "
                                   ++ exn_text e)]])
         ++ fst (main_dashboard cfg w after))%list, inr tt).
Proof.
  intros Hbody.
  assert (Hone : render_ticker cfg w ticker =
                 ((out ++ [StError [Lit ("Could not load info for " ++ ticker ++ ": "
                                         ++ exn_text e)]])%list, inr tt)).
  { unfold render_ticker, try_except. rewrite Hbody. reflexivity. }
  split; [exact Hone |].
  intros before after. now rewrite main_dashboard_middle, Hone.
Qed.

Lemma ticker_exception_contained_C4_witness :
  main_dashboard sample_config sample_world (["AAPL"] ++ "FAKE123" :: ["NVDA"]) =
  ((fst (main_dashboard sample_config sample_world ["AAPL"])
    ++ ([] ++ [StError [Lit "Could not load info for FAKE123: 404 Client Error: Not Found"]])
    ++ fst (main_dashboard sample_config sample_world ["NVDA"]))%list, inr tt).
Proof.
  apply (ticker_exception_contained_C4 sample_config sample_world "FAKE123" []
           (Exn "HTTPError" "404 Client Error: Not Found")).
  reflexivity.
Defined.

(** ** News *)

(** C5. With an empty API key, [get_company_news] returns the empty list
    and sends no request; the news section of a ticker shows its heading and
    the prompt to enter a key, no news card, and returns normally. *)
Theorem news_disabled_without_key_C5 (cfg : config) (w : world) (ticker : string) :
  finnhub_api cfg = "" ->
  (forall symbol, get_company_news w symbol (finnhub_api cfg) = ([], inr []))
  /\ news_section cfg w ticker =
     ([StSubheader [Lit ("📰 " ++ ticker ++ " Recent News")]; StInfo [Lit KEY_PROMPT]],
      inr tt).
Proof.
  intros Hkey. split.
  - intros symbol. rewrite Hkey. reflexivity.
  - unfold news_section. rewrite Hkey. reflexivity.
Qed.

Lemma news_disabled_without_key_C5_witness :
  news_section sample_config sample_world "AAPL" =
  ([StSubheader [Lit "📰 AAPL Recent News"]; StInfo [Lit KEY_PROMPT]], inr tt).
Proof.
  apply (news_disabled_without_key_C5 sample_config sample_world "AAPL").
  reflexivity.
Defined.

(** C6. With a non-empty key, when the news request fails in transport or
    is answered with a status other than 200, [get_company_news] sends that
    one request and returns the empty list without raising. *)
Theorem news_fetch_failure_silent_C6 (w : world) (symbol api_key : string) :
  api_key <> "" ->
  (exists e, requests_get w (news_request w symbol api_key) = inl e)
  \/ (exists response,
        requests_get w (news_request w symbol api_key) = inr response
        /\ status_code response <> 200) ->
  get_company_news w symbol api_key = ([news_request w symbol api_key], inr []).
Proof.
  intros Hkey Hfail.
  unfold get_company_news.
  replace (negb (truthy (PyStr api_key))) with false.
  2:{ simpl. destruct (String.eqb_spec api_key ""); [contradiction | reflexivity]. }
  unfold http_get, try_except.
  destruct Hfail as [[e He] | [response [Hr Hstatus]]].
  - rewrite He. reflexivity.
  - rewrite Hr. cbn [bind].
    replace (status_code response =? 200) with false
      by (symmetry; now apply Z.eqb_neq).
    reflexivity.
Qed.

Lemma news_fetch_failure_silent_C6_witness :
  get_company_news sample_world "AAPL" "secret" =
  ([news_request sample_world "AAPL" "secret"], inr []).
Proof.
  apply (news_fetch_failure_silent_C6 sample_world "AAPL" "secret").
  - discriminate.
  - right. eexists. split; [reflexivity | simpl; lia].
Defined.

(** ** Metric columns *)

Lemma money_or_na_falsy (spec : string) (p : nat) (v : pyval) :
  truthy v = false -> money_or_na spec p v = ([], inr [Lit "N/A"]).
Proof.
  intros H. unfold money_or_na. now rewrite H.
Qed.

(** A record without a price or without a market cap shows N/A there. *)
Lemma missing_price_or_cap_na (info : dict) :
  (lookup info "currentPrice" = None ->
   price_column info = ([StMetric "Current Price" [Lit "N/A"] None], inr tt))
  /\ (lookup info "marketCap" = None ->
      cap_column info = ([StMetric "Market Cap" [Lit "N/A"] None], inr tt)).
Proof.
  split; intros H.
  - unfold price_column, dict_get, dict_get_default. rewrite H.
    rewrite money_or_na_falsy by reflexivity. reflexivity.
  - unfold cap_column, dict_get, dict_get_default. rewrite H.
    rewrite money_or_na_falsy by reflexivity. reflexivity.
Qed.

(** C7, at a record that has a price and a market cap and no 52-week
    fields: the third column interpolates [None] twice, so the page reads
    "$None / $None" where the first two columns would have read "N/A". *)
Theorem missing_52w_range_C7 :
  lookup sample_info "fiftyTwoWeekHigh" = None
  /\ lookup sample_info "fiftyTwoWeekLow" = None
  /\ range_column sample_info =
     ([StMetric "52w High / Low" [Lit "$"; Field PyNone; Lit " / $"; Field PyNone] None],
      inr tt)
  /\ text_str [Lit "$"; Field PyNone; Lit " / $"; Field PyNone] = Some "$None / $None"
  /\ forall w ticker, exists c4,
       fst (metrics w sample_info ticker) =
       [StColumns [1; 1; 1; 1]
          [ [StMetric "Current Price" [Lit "$150.00"] None];
            [StMetric "Market Cap" [Lit "$3,000,000,000,000"] None];
            [StMetric "52w High / Low"
               [Lit "$"; Field PyNone; Lit " / $"; Field PyNone] None];
            c4 ]].
Proof.
  repeat split.
  intros w ticker. unfold metrics, st_columns.
  assert (Hp : price_column sample_info =
               ([StMetric "Current Price" [Lit "$150.00"] None], inr tt))
    by (vm_compute; reflexivity).
  assert (Hc : cap_column sample_info =
               ([StMetric "Market Cap" [Lit "$3,000,000,000,000"] None], inr tt))
    by (vm_compute; reflexivity).
  cbn [run_columns]. rewrite Hp, Hc. cbn [range_column sample_info].
  destruct (daily_change w ticker) as [o4 [e4 | u4]]; exists o4; reflexivity.
Qed.

(** C10. A current price or a market cap equal to zero (the int 0, or a
    float that compares equal to 0) is shown as N/A, in the column and in
    the metrics row. *)
Theorem zero_rendered_as_na_C10 (info : dict) (v : pyval) :
  v = PyInt 0 \/ (exists f, v = PyFloat f /\ PrimFloat.eqb f 0%float = true) ->
  (dict_get info "currentPrice" = v ->
   price_column info = ([StMetric "Current Price" [Lit "N/A"] None], inr tt)
   /\ forall w ticker, exists c2 c3 c4,
        fst (metrics w info ticker) =
        [StColumns [1; 1; 1; 1] [[StMetric "Current Price" [Lit "N/A"] None]; c2; c3; c4]])
  /\ (dict_get info "marketCap" = v ->
      cap_column info = ([StMetric "Market Cap" [Lit "N/A"] None], inr tt)
      /\ forall w ticker c1,
           price_column info = (c1, inr tt) ->
           exists c3 c4,
             fst (metrics w info ticker) =
             [StColumns [1; 1; 1; 1] [c1; [StMetric "Market Cap" [Lit "N/A"] None]; c3; c4]]).
Proof.
  intros Hzero.
  assert (Hfalsy : truthy v = false).
  { destruct Hzero as [-> | [f [-> Hf]]]; simpl; [reflexivity | now rewrite Hf]. }
  split; intros Hget.
  - assert (Hcol : price_column info = ([StMetric "Current Price" [Lit "N/A"] None], inr tt)).
    { unfold price_column. rewrite Hget, money_or_na_falsy by exact Hfalsy. reflexivity. }
    split; [exact Hcol |].
    intros w ticker. unfold metrics, st_columns. cbn [run_columns]. rewrite Hcol.
    destruct (cap_column info) as [o2 [e2 | u2]]; [now eexists _, _, _ |].
    destruct (range_column info) as [o3 [e3 | u3]]; [now eexists _, _, _ |].
    destruct (daily_change w ticker) as [o4 [e4 | u4]]; now eexists _, _, _.
  - assert (Hcol : cap_column info = ([StMetric "Market Cap" [Lit "N/A"] None], inr tt)).
    { unfold cap_column. rewrite Hget, money_or_na_falsy by exact Hfalsy. reflexivity. }
    split; [exact Hcol |].
    intros w ticker c1 Hprice. unfold metrics, st_columns. cbn [run_columns].
    rewrite Hprice, Hcol.
    destruct (range_column info) as [o3 [e3 | u3]]; [now eexists _, _ |].
    destruct (daily_change w ticker) as [o4 [e4 | u4]]; now eexists _, _.
Qed.

Lemma zero_rendered_as_na_C10_witness :
  price_column [("currentPrice", PyInt 0); ("marketCap", PyInt 0)] =
    ([StMetric "Current Price" [Lit "N/A"] None], inr tt)
  /\ cap_column [("currentPrice", PyInt 0); ("marketCap", PyInt 0)] =
    ([StMetric "Market Cap" [Lit "N/A"] None], inr tt).
Proof.
  pose proof (zero_rendered_as_na_C10
                [("currentPrice", PyInt 0); ("marketCap", PyInt 0)] (PyInt 0)
                (or_introl eq_refl)) as [Hprice Hcap].
  split; [apply Hprice | apply Hcap]; reflexivity.
Defined.

(** ** Company summary *)





(** ** Refresh scheduler *)





(** ** Ticker parsing *)

Lemma split_nonempty (sep : ascii) (s : string) : split sep s <> [].
Proof.
  destruct s as [| c s']; simpl; [discriminate |].
  destruct (Ascii.eqb c sep); [discriminate |].
  destruct (split sep s'); discriminate.
Qed.

Lemma split_app_sep (sep : ascii) (a b : string) :
  split sep (a ++ String sep b) = (split sep a ++ split sep b)%list.
Proof.
  induction a as [| c a IH]; simpl.
  - now rewrite Ascii.eqb_refl.
  - destruct (Ascii.eqb c sep).
    + now rewrite IH.
    + rewrite IH. pose proof (split_nonempty sep a) as Hne.
      destruct (split sep a); [contradiction | reflexivity].
Qed.

Lemma split_pieces_lack_sep (sep : ascii) (s piece : string) :
  In piece (split sep s) -> has_char sep piece = false.
Proof.
  revert piece. induction s as [| c s IH]; simpl; intros piece Hin.
  - destruct Hin as [<- | []]. reflexivity.
  - destruct (Ascii.eqb c sep) eqn:Hc.
    + destruct Hin as [<- | Hin]; [reflexivity | now apply IH].
    + destruct (split sep s) as [| p rest] eqn:Hs.
      * destruct Hin as [<- | []]. simpl. now rewrite Hc.
      * destruct Hin as [<- | Hin].
        -- simpl. rewrite Hc. apply IH. now left.
        -- apply IH. now right.
Qed.

Lemma has_char_drop (c : ascii) (n : nat) (s : string) :
  has_char c (drop n s) = true -> has_char c s = true.
Proof.
  revert s. induction n as [| n IH]; intros s H; [exact H |].
  destruct s as [| c' s']; [exact H |].
  simpl in *. rewrite (IH s' H). apply orb_true_r.
Qed.

Lemma has_char_rev (c : ascii) (acc s : string) :
  has_char c (rev_string acc s) = has_char c acc || has_char c s.
Proof.
  revert acc. induction s as [| c' s IH]; intros acc; simpl.
  - now rewrite orb_false_r.
  - rewrite IH. simpl. destruct (Ascii.eqb c' c), (has_char c acc), (has_char c s); reflexivity.
Qed.

Lemma lstrip_fuel_is_drop (fuel : nat) (s : string) :
  exists k, lstrip_fuel fuel s = drop k s.
Proof.
  revert s. induction fuel as [| fuel IH]; intros s; cbn [lstrip_fuel].
  - now exists 0%nat.
  - destruct (space_prefix s) as [| n]; [now exists 0%nat |].
    destruct (IH (drop (S n) s)) as [k Hk]. rewrite Hk.
    exists (k + S n)%nat. clear. revert s. generalize (S n) as m.
    intros m. revert k. induction m as [| m IHm]; intros k s.
    + now rewrite Nat.add_0_r.
    + rewrite Nat.add_succ_r. destruct s as [| c s]; simpl.
      * now destruct k.
      * apply IHm.
Qed.

Lemma rstrip_rev_fuel_is_drop (fuel : nat) (r : string) :
  exists k, rstrip_rev_fuel fuel r = drop k r.
Proof.
  revert r. induction fuel as [| fuel IH]; intros r; cbn [rstrip_rev_fuel].
  - now exists 0%nat.
  - destruct (space_suffix r) as [| n]; [now exists 0%nat |].
    destruct (IH (drop (S n) r)) as [k Hk]. rewrite Hk.
    exists (k + S n)%nat. clear. revert r. generalize (S n) as m.
    intros m. revert k. induction m as [| m IHm]; intros k r.
    + now rewrite Nat.add_0_r.
    + rewrite Nat.add_succ_r. destruct r as [| c r]; simpl.
      * now destruct k.
      * apply IHm.
Qed.

(** A character of [strip s] is a character of [s]. *)
Lemma has_char_strip (c : ascii) (s : string) :
  has_char c (strip s) = true -> has_char c s = true.
Proof.
  unfold strip, rstrip, lstrip. intros H.
  rewrite has_char_rev in H. simpl in H.
  destruct (rstrip_rev_fuel_is_drop
              (String.length (lstrip_fuel (String.length s) s))
              (rev_string EmptyString (lstrip_fuel (String.length s) s))) as [k Hk].
  rewrite Hk in H. apply has_char_drop in H.
  rewrite has_char_rev in H. simpl in H.
  destruct (lstrip_fuel_is_drop (String.length s) s) as [k' Hk'].
  rewrite Hk' in H. now apply has_char_drop in H.
Qed.

(** X1. Parsing distributes over a comma: the tickers of [a,b] are the
    tickers of [a] followed by the tickers of [b], so order and repetitions
    of the input are kept. *)
Theorem parse_tickers_comma (upper : string -> string) (a b : string) :
  parse_tickers upper (a ++ String "," b) =
  (parse_tickers upper a ++ parse_tickers upper b)%list.
Proof.
  unfold parse_tickers. now rewrite split_app_sep, filter_app, map_app.
Qed.

(** X2. Every parsed ticker is the upper-casing of a non-empty text
    without a comma, the stripped form of one of the comma-separated pieces
    of the input: blank pieces (between two commas, at either end, or of
    white space only) give no ticker. *)
Theorem parse_tickers_entries (upper : string -> string) (tickers_input t : string) :
  In t (parse_tickers upper tickers_input) ->
  exists piece,
    In piece (split "," tickers_input)
    /\ t = upper (strip piece)
    /\ strip piece <> ""
    /\ has_char "," (strip piece) = false.
Proof.
  unfold parse_tickers. intros Hin.
  apply in_map_iff in Hin. destruct Hin as [piece [<- Hin]].
  apply filter_In in Hin. destruct Hin as [Hin Htruthy].
  exists piece. repeat split; try assumption.
  - intros Hempty. rewrite Hempty in Htruthy. discriminate.
  - destruct (has_char "," (strip piece)) eqn:Hc; [| reflexivity].
    apply has_char_strip in Hc.
    now rewrite (split_pieces_lack_sep "," tickers_input piece Hin) in Hc.
Qed.

Lemma parse_tickers_entries_witness :
  exists piece,
    In piece (split "," "AAPL, tsla,,")
    /\ "TSLA" = ascii_upper (strip piece)
    /\ strip piece <> ""
    /\ has_char "," (strip piece) = false.
Proof.
  apply (parse_tickers_entries ascii_upper "AAPL, tsla,," "TSLA").
  vm_compute. right. left. reflexivity.
Defined.

(** ** The news fetch *)

Lemma filter_logs_nothing {L : Type} (items : list pyval) :
  fst (@with_headline_and_url L items) = [].
Proof.
  induction items as [| item rest IH]; [reflexivity |].
  cbn [with_headline_and_url].
  destruct item; try reflexivity.
  cbn [attr_get attr_get_default ret bind app].
  destruct (truthy (dict_get_default d "headline" PyNone));
    cbn [ret bind app];
    destruct (with_headline_and_url rest) as [out [e | kept]];
    simpl in IH; subst out; reflexivity.
Qed.

Lemma filter_dicts {L : Type} (ds : list dict) :
  @with_headline_and_url L (map PyDict ds) =
  ([], inr (map PyDict (filter has_headline_and_url ds))).
Proof.
  induction ds as [| d ds IH]; [reflexivity |].
  cbn [map with_headline_and_url attr_get attr_get_default ret bind app filter].
  unfold has_headline_and_url at 1. unfold dict_get.
  destruct (truthy (dict_get_default d "headline" PyNone)) eqn:Hh;
    cbn [ret bind app andb]; rewrite ?Hh; rewrite IH; cbn [bind ret app].
  - destruct (truthy (dict_get_default d "url" PyNone)); reflexivity.
  - reflexivity.
Qed.

Lemma filter_rejects_non_dict {L : Type} (items : list pyval) :
  existsb (fun v => negb (is_dict v)) items = true ->
  exists e, @with_headline_and_url L items = ([], inl e).
Proof.
  induction items as [| item rest IH]; [discriminate |].
  cbn [existsb]. intros H.
  destruct item; try (eexists; reflexivity).
  simpl in H. destruct (IH H) as [e He].
  cbn [with_headline_and_url attr_get attr_get_default ret bind app].
  destruct (truthy (dict_get_default d "headline" PyNone));
    cbn [ret bind app]; rewrite He; exists e; reflexivity.
Qed.

(** The body of the [try] in [get_company_news], once the key is known to
    be non-empty. *)
Lemma get_company_news_keyed (w : world) (symbol api_key : string) :
  api_key <> "" ->
  get_company_news w symbol api_key =
  try_except
    (response <- http_get w (news_request w symbol api_key) ;;
     if status_code response =? 200 then
       data <- lift (json response) ;;
       items <- py_iter data ;;
       with_headline_and_url items
     else ret [])
    (fun _ => ret []).
Proof.
  intros Hkey. unfold get_company_news.
  replace (negb (truthy (PyStr api_key))) with false; [reflexivity |].
  simpl. destruct (String.eqb_spec api_key ""); [contradiction | reflexivity].
Qed.

Lemma get_company_news_shape (w : world) (symbol api_key : string) :
  exists items,
    get_company_news w symbol api_key =
    ((if String.eqb api_key "" then [] else [news_request w symbol api_key]), inr items).
Proof.
  destruct (String.eqb_spec api_key "") as [-> | Hkey].
  - exists []. reflexivity.
  - rewrite (get_company_news_keyed w symbol api_key Hkey).
    unfold http_get, try_except.
    destruct (requests_get w (news_request w symbol api_key)) as [e | response];
      [now exists [] |].
    cbn [bind].
    destruct (status_code response =? 200); [| now exists []].
    destruct (json response) as [e | data]; [now exists [] |].
    cbn [lift bind app].
    assert (Hiter : (exists e, @py_iter request data = ([], inl e))
                    \/ exists items, @py_iter request data = ([], inr items)).
    { destruct data;
        first [left; eexists; reflexivity | right; eexists; reflexivity]. }
    destruct Hiter as [[e ->] | [items ->]]; [now exists [] |].
    cbn [bind app].
    pose proof (@filter_logs_nothing request items) as Hlog.
    destruct (with_headline_and_url items) as [out [e | kept]];
      simpl in Hlog; subst out; eexists; reflexivity.
Qed.

(** X3. [get_company_news] never raises, whatever the network and the
    payload do, and sends at most one request: none for an empty key, the
    news request otherwise. *)
Theorem get_company_news_total (w : world) (symbol api_key : string) :
  exists items,
    get_company_news w symbol api_key =
    ((if String.eqb api_key "" then [] else [news_request w symbol api_key]), inr items).
Proof.
  exact (get_company_news_shape w symbol api_key).
Qed.

(** X4. On a 200 answer whose JSON is a list of records, the result is
    exactly the records that have a truthy headline and a truthy url, in
    the provider's order. *)
Theorem get_company_news_filters (w : world) (symbol api_key : string)
        (response : response) (records : list dict) :
  api_key <> "" ->
  requests_get w (news_request w symbol api_key) = inr response ->
  status_code response = 200 ->
  json response = inr (PyList (map PyDict records)) ->
  snd (get_company_news w symbol api_key) =
  inr (map PyDict (filter has_headline_and_url records)).
Proof.
  intros Hkey Hget Hstatus Hjson.
  rewrite (get_company_news_keyed w symbol api_key Hkey).
  unfold http_get, try_except. rewrite Hget. cbn [bind].
  rewrite Hstatus, Hjson. cbn [Z.eqb Pos.eqb lift bind py_iter ret app].
  rewrite filter_dicts. reflexivity.
Qed.

Lemma get_company_news_filters_witness :
  snd (get_company_news
         (news_world (inr (PyList (map PyDict
            [sample_article "Chips up" "https://n.example/1";
             sample_article "" "https://n.example/2";
             [("headline", PyStr "No link")]]))))
         "AAPL" "secret") =
  inr [PyDict (sample_article "Chips up" "https://n.example/1")].
Proof.
  apply (get_company_news_filters _ "AAPL" "secret"
           (Response 200 "" (inr (PyList (map PyDict
              [sample_article "Chips up" "https://n.example/1";
               sample_article "" "https://n.example/2";
               [("headline", PyStr "No link")]]))))
           [sample_article "Chips up" "https://n.example/1";
            sample_article "" "https://n.example/2";
            [("headline", PyStr "No link")]]);
    [discriminate | reflexivity | reflexivity | reflexivity].
Defined.

(** X5. On a 200 answer, a body that is not JSON, a list with one item
    that is not a record, or a non-empty JSON object (an error report)
    gives the empty list: one malformed item discards every article. *)
Theorem get_company_news_malformed (w : world) (symbol api_key : string)
        (response : response) :
  api_key <> "" ->
  requests_get w (news_request w symbol api_key) = inr response ->
  status_code response = 200 ->
  (exists e, json response = inl e)
  \/ (exists items, json response = inr (PyList items)
                    /\ existsb (fun v => negb (is_dict v)) items = true)
  \/ (exists k v rest, json response = inr (PyDict ((k, v) :: rest))) ->
  get_company_news w symbol api_key = ([news_request w symbol api_key], inr []).
Proof.
  intros Hkey Hget Hstatus Hbad.
  rewrite (get_company_news_keyed w symbol api_key Hkey).
  unfold http_get, try_except. rewrite Hget. cbn [bind].
  rewrite Hstatus. cbn [Z.eqb Pos.eqb].
  destruct Hbad as [[e ->] | [[items [-> Hitems]] | [k [v [rest ->]]]]].
  - reflexivity.
  - cbn [lift bind py_iter ret app].
    destruct (filter_rejects_non_dict (L := request) items Hitems) as [e ->].
    reflexivity.
  - reflexivity.
Qed.

Lemma get_company_news_malformed_witness :
  get_company_news
    (news_world (inr (PyList [PyDict (sample_article "Chips up" "https://n.example/1");
                              PyStr "oops"])))
    "AAPL" "secret" =
  ([news_request sample_world "AAPL" "secret"], inr []).
Proof.
  apply (get_company_news_malformed
           (news_world (inr (PyList [PyDict (sample_article "Chips up" "https://n.example/1");
                                     PyStr "oops"])))
           "AAPL" "secret"
           (Response 200 ""
              (inr (PyList [PyDict (sample_article "Chips up" "https://n.example/1");
                            PyStr "oops"]))));
    [discriminate | reflexivity | reflexivity |].
  right. left. eexists. split; reflexivity.
Defined.

(** ** The news section *)

Lemma bind_log_length {L A B : Type} (m : eff L A) (k : A -> eff L B) (a b : nat) :
  (List.length (fst m) <= a)%nat ->
  (forall x, List.length (fst (k x)) <= b)%nat ->
  (List.length (fst (bind m k)) <= a + b)%nat.
Proof.
  intros Hm Hk. destruct m as [out [e | x]]; simpl in *; [lia |].
  specialize (Hk x). destruct (k x) as [out' r]; simpl in *.
  rewrite length_app. lia.
Qed.

Lemma news_card_one_event (w : world) (article : pyval) :
  (List.length (fst (news_card w article)) <= 1)%nat.
Proof.
  unfold news_card.
  destruct article; try (simpl; lia).
  cbn [attr_get attr_get_default ret bind app].
  destruct (fromtimestamp w (dict_get_default d "datetime" (PyInt 0))); simpl; lia.
Qed.

Lemma for_each_log_length {L A : Type} (l : list A) (body : A -> eff L unit) :
  (forall x, List.length (fst (body x)) <= 1)%nat ->
  (List.length (fst (for_each l body)) <= List.length l)%nat.
Proof.
  intros Hbody. induction l as [| x l IH]; simpl; [lia |].
  change (S (List.length l)) with (1 + List.length l)%nat.
  apply bind_log_length; [apply Hbody | intros _; exact IH].
Qed.

(** X6. The news section of a ticker renders at most six elements, its
    heading included: never more than five cards, however many articles
    were fetched and whether or not a card raises. *)
Theorem news_section_at_most_five (cfg : config) (w : world) (ticker : string) :
  (List.length (fst (news_section cfg w ticker)) <= 6)%nat.
Proof.
  unfold news_section.
  destruct (String.eqb_spec (finnhub_api cfg) "") as [Hkey | Hkey].
  - rewrite Hkey. simpl. lia.
  - assert (Htruthy : truthy (PyStr (finnhub_api cfg)) = true).
    { simpl. destruct (String.eqb_spec (finnhub_api cfg) ""); [contradiction | reflexivity]. }
    rewrite Htruthy.
    destruct (get_company_news_shape w ticker (finnhub_api cfg)) as [items Hitems].
    rewrite Hitems. cbn [negb snd lift st_subheader emit bind app fst].
    destruct (truthy (PyList items)); [| simpl; lia].
    pose proof (for_each_log_length (firstn 5 items) (news_card w)
                  (news_card_one_event w)) as Hlen.
    pose proof (firstn_le_length 5 items) as Hfive.
    destruct (for_each (firstn 5 items) (news_card w)) as [out r]; simpl in *. lia.
Qed.

(** X7. With a key entered, a news request that fails in transport or is
    answered with another status than 200 reads on the page like a ticker
    without news: the heading and "No recent news available.", no error. *)
Theorem news_failure_reads_as_no_news (cfg : config) (w : world) (ticker : string) :
  finnhub_api cfg <> "" ->
  (exists e, requests_get w (news_request w ticker (finnhub_api cfg)) = inl e)
  \/ (exists response,
        requests_get w (news_request w ticker (finnhub_api cfg)) = inr response
        /\ status_code response <> 200) ->
  news_section cfg w ticker =
  ([StSubheader [Lit ("📰 " ++ ticker ++ " Recent News")];
    StInfo [Lit "No recent news available."]], inr tt).
Proof.
  intros Hkey Hfail.
  assert (Hnews : snd (get_company_news w ticker (finnhub_api cfg)) = inr []).
  { rewrite (get_company_news_keyed w ticker _ Hkey).
    unfold http_get, try_except.
    destruct Hfail as [[e ->] | [response [-> Hstatus]]]; [reflexivity |].
    cbn [bind]. apply Z.eqb_neq in Hstatus. rewrite Hstatus. reflexivity. }
  unfold news_section. rewrite Hnews.
  assert (Htruthy : truthy (PyStr (finnhub_api cfg)) = true).
  { simpl. destruct (String.eqb_spec (finnhub_api cfg) ""); [contradiction | reflexivity]. }
  rewrite Htruthy. reflexivity.
Qed.

Lemma news_failure_reads_as_no_news_witness :
  news_section keyed_config sample_world "AAPL" =
  ([StSubheader [Lit "📰 AAPL Recent News"];
    StInfo [Lit "No recent news available."]], inr tt).
Proof.
  apply (news_failure_reads_as_no_news keyed_config sample_world "AAPL").
  - discriminate.
  - right. eexists. split; [reflexivity | simpl; lia].
Defined.

(** ** The logo *)

Lemma logo_column_shape (w : world) (logo_url : pyval) :
  logo_column w logo_url = ([], inr tt)
  \/ exists r img,
       truthy logo_url = true
       /\ requests_get w (Request logo_url [] 5) = inr r
       /\ status_code r = 200
       /\ image_open w (content r) = inr img
       /\ logo_column w logo_url = ([StImage img 100], inr tt).
Proof.
  unfold logo_column.
  destruct (truthy logo_url) eqn:Htruthy; [| now left].
  destruct (requests_get w (Request logo_url [] 5)) as [e | r] eqn:Hget; [now left |].
  cbn [lift bind try_except].
  destruct (status_code r =? 200) eqn:Hstatus; [| now left].
  destruct (image_open w (content r)) as [e | img] eqn:Himg; [now left |].
  right. exists r, img. apply Z.eqb_eq in Hstatus. repeat split; assumption || reflexivity.
Qed.

(** X8. The logo column never raises and renders nothing or one image of
    width 100; an image is rendered only for a truthy URL whose request was
    answered with status 200 and a body that opens as an image. *)
Theorem logo_column_silent (w : world) (logo_url : pyval) :
  logo_column w logo_url = ([], inr tt)
  \/ exists r img,
       truthy logo_url = true
       /\ requests_get w (Request logo_url [] 5) = inr r
       /\ status_code r = 200
       /\ image_open w (content r) = inr img
       /\ logo_column w logo_url = ([StImage img 100], inr tt).
Proof.
  exact (logo_column_shape w logo_url).
Qed.

Lemma split_first_lacks_sep (sep : ascii) (s : string) :
  has_char sep (split_first sep s) = false.
Proof.
  induction s as [| c s IH]; [reflexivity |].
  simpl. destruct (Ascii.eqb c sep) eqn:Hc; [reflexivity |].
  simpl. now rewrite Hc.
Qed.

(** X9. Resolving the logo URL: a truthy [logo_url] field is used as it
    is, without looking at the website; otherwise, with a text (or absent)
    website, the result is either the falsy field itself or the logo
    service's URL followed by a non-empty domain without a slash; the step
    raises only for a website that is present and not a text. *)
Theorem resolve_logo_url_cases (info : dict) :
  (truthy (dict_get info "logo_url") = true ->
   resolve_logo_url info = ([], inr (dict_get info "logo_url")))
  /\ (truthy (dict_get info "logo_url") = false ->
      (forall site, dict_get_default info "website" (PyStr "") = PyStr site ->
         resolve_logo_url info = ([], inr (dict_get info "logo_url"))
         \/ exists domain,
              domain <> "" /\ has_char "/" domain = false
              /\ resolve_logo_url info =
                 ([], inr (PyStr ("https://logo.clearbit.com/" ++ domain))))
      /\ (forall v, dict_get_default info "website" (PyStr "") = v ->
          (forall site, v <> PyStr site) ->
          resolve_logo_url info = ([], inl (AttributeError v "replace")))).
Proof.
  unfold resolve_logo_url. split.
  - intros Htruthy. now rewrite Htruthy.
  - intros Hfalsy. rewrite Hfalsy. cbn [negb]. split.
    + intros site ->.
      set (domain := split_first "/" (remove_all "http://" (remove_all "https://" site))).
      destruct (truthy (PyStr domain)) eqn:Hdomain; [right | now left].
      exists domain. split; [| split].
      * intros Hempty. rewrite Hempty in Hdomain. discriminate.
      * apply split_first_lacks_sep.
      * reflexivity.
    + intros v -> Hnot.
      destruct v as [| b | z | f | site | l | d]; try reflexivity.
      now elim (Hnot site).
Qed.

Lemma resolve_logo_url_cases_witness :
  resolve_logo_url [("logo_url", PyStr "https://cdn.example/a.png"); ("website", PyNone)] =
    ([], inr (PyStr "https://cdn.example/a.png"))
  /\ resolve_logo_url [("website", PyNone)] =
    ([], inl (AttributeError PyNone "replace")).
Proof.
  pose proof (resolve_logo_url_cases
                [("logo_url", PyStr "https://cdn.example/a.png"); ("website", PyNone)])
    as [Hexplicit _].
  pose proof (resolve_logo_url_cases [("website", PyNone)]) as [_ Hguess].
  split.
  - apply Hexplicit. reflexivity.
  - destruct (Hguess eq_refl) as [_ Hraise].
    apply (Hraise PyNone); [reflexivity | discriminate].
Defined.

Lemma is_prefix_has_char (c : ascii) (pat s : string) :
  has_char c pat = true -> is_prefix pat s = true -> has_char c s = true.
Proof.
  revert s. induction pat as [| a pat IH]; intros s Hc Hp; [discriminate |].
  destruct s as [| b s]; [discriminate |].
  simpl in *. apply andb_true_iff in Hp. destruct Hp as [Hab Hp].
  apply Ascii.eqb_eq in Hab. subst b.
  destruct (Ascii.eqb a c); [reflexivity |]. simpl in *. now apply IH.
Qed.

(** A text without any character of the pattern is left as it is. *)
Lemma remove_all_fuel_absent (c : ascii) (pat : string) (fuel : nat) (s : string) :
  has_char c pat = true -> has_char c s = false ->
  remove_all_fuel fuel pat s = s.
Proof.
  intros Hpat. revert s. induction fuel as [| fuel IH]; intros s Hs; [reflexivity |].
  destruct s as [| a s]; [reflexivity |].
  cbn [remove_all_fuel].
  destruct (is_prefix pat (String a s)) eqn:Hp.
  - apply (is_prefix_has_char c) in Hp; [congruence | exact Hpat].
  - simpl in Hs. apply orb_false_iff in Hs. destruct Hs as [_ Hs].
    now rewrite (IH s Hs).
Qed.

Lemma has_char_app (c : ascii) (a b : string) :
  has_char c (a ++ b) = has_char c a || has_char c b.
Proof.
  induction a as [| x a IH]; [reflexivity |].
  simpl. rewrite IH. now rewrite orb_assoc.
Qed.

Lemma split_first_app (sep : ascii) (host rest : string) :
  has_char sep host = false ->
  split_first sep (host ++ String sep rest) = host
  /\ split_first sep host = host.
Proof.
  induction host as [| c host IH]; intros Hc; simpl.
  - now rewrite Ascii.eqb_refl.
  - simpl in Hc. apply orb_false_iff in Hc. destruct Hc as [Hc Hhost].
    rewrite Hc. destruct (IH Hhost) as [-> ->]. now split.
Qed.

Lemma remove_all_fuel_prefix (pat r : string) (fuel : nat) :
  pat <> "" ->
  remove_all_fuel (S fuel) pat (pat ++ r) = remove_all_fuel fuel pat r.
Proof.
  intros Hpat. destruct pat as [| c pat]; [contradiction |].
  cbn [append remove_all_fuel].
  assert (Hp : forall p, is_prefix p (p ++ r) = true).
  { induction p as [| x p IH]; [reflexivity |]. simpl. now rewrite Ascii.eqb_refl. }
  assert (Hd : forall p, drop (String.length p) (p ++ r) = r).
  { induction p as [| x p IH]; [reflexivity | exact IH]. }
  change (String c (pat ++ r)) with (String c pat ++ r).
  now rewrite Hp, Hd.
Qed.

Ltac keep_char :=
  match goal with
  | |- remove_all_fuel ?n ?pat (String ?c ?s) = _ =>
      let m := fresh "fuel" in
      destruct n as [| m]; [reflexivity |];
      cbn [remove_all_fuel];
      replace (is_prefix pat (String c s)) with false by reflexivity;
      f_equal
  end.

(** Removing [https://] leaves a text that starts with [http://] and has
    no other colon as it is. *)
Lemma remove_https_from_http (r : string) (fuel : nat) :
  has_char ":" r = false ->
  remove_all_fuel fuel "https://" ("http://" ++ r) = "http://" ++ r.
Proof.
  intros Hcolon. cbn [append].
  do 7 keep_char.
  exact (remove_all_fuel_absent ":" "https://" _ r eq_refl Hcolon).
Qed.

(** X10. For a website [https://host], [http://host] or either followed
    by [/path], with no colon after the scheme and a non-empty host, a
    record without a logo field gets the logo service's URL for exactly that
    host. *)
Theorem logo_guess_from_website (info : dict) (scheme host tail : string) :
  truthy (dict_get info "logo_url") = false ->
  scheme = "https://" \/ scheme = "http://" ->
  dict_get_default info "website" (PyStr "") = PyStr (scheme ++ host ++ tail) ->
  host <> "" ->
  has_char "/" host = false ->
  has_char ":" (host ++ tail) = false ->
  tail = "" \/ (exists path, tail = String "/" path) ->
  resolve_logo_url info = ([], inr (PyStr ("https://logo.clearbit.com/" ++ host))).
Proof.
  intros Hfalsy Hscheme Hsite Hhost Hslash Hcolon Htail.
  unfold resolve_logo_url. rewrite Hfalsy, Hsite. cbn [negb].
  assert (Hclean : remove_all "http://" (remove_all "https://" (scheme ++ host ++ tail))
                   = host ++ tail).
  { unfold remove_all. destruct Hscheme as [-> | ->].
    - change (String.length ("https://" ++ host ++ tail))
        with (S (7 + String.length (host ++ tail))).
      rewrite remove_all_fuel_prefix by discriminate.
      rewrite (remove_all_fuel_absent ":" "https://" _ (host ++ tail) eq_refl Hcolon).
      exact (remove_all_fuel_absent ":" "http://" _ (host ++ tail) eq_refl Hcolon).
    - rewrite (remove_https_from_http (host ++ tail) _ Hcolon).
      change (String.length ("http://" ++ host ++ tail))
        with (S (6 + String.length (host ++ tail))).
      rewrite remove_all_fuel_prefix by discriminate.
      exact (remove_all_fuel_absent ":" "http://" _ (host ++ tail) eq_refl Hcolon). }
  rewrite Hclean.
  assert (Hdomain : split_first "/" (host ++ tail) = host).
  { destruct Htail as [-> | [path ->]].
    - replace (host ++ "") with host by (clear; induction host; simpl; congruence).
      apply (split_first_app "/" host "" Hslash).
    - apply (split_first_app "/" host path Hslash). }
  rewrite Hdomain.
  replace (truthy (PyStr host)) with true; [reflexivity |].
  simpl. destruct (String.eqb_spec host ""); [contradiction | reflexivity].
Qed.

Lemma logo_guess_from_website_witness :
  resolve_logo_url [("website", PyStr "https://www.apple.com/iphone")] =
  ([], inr (PyStr "https://logo.clearbit.com/www.apple.com")).
Proof.
  apply (logo_guess_from_website [("website", PyStr "https://www.apple.com/iphone")]
           "https://" "www.apple.com" "/iphone");
    [reflexivity | now left | reflexivity | discriminate | reflexivity | reflexivity |].
  right. now exists "iphone".
Defined.

(** ** The page as a whole *)

Lemma quiet_bind {A B : Type} (m : ui A) (k : A -> ui B) :
  quiet m -> (forall a, quiet (k a)) -> quiet (bind m k).
Proof.
  unfold quiet. intros Hm Hk. destruct m as [out [e | a]]; simpl in *; [exact Hm |].
  specialize (Hk a). destruct (k a) as [out' r]; simpl in *.
  now rewrite filter_app, Hm, Hk.
Qed.

Lemma quiet_lift {A : Type} (r : result A) : quiet (lift r).
Proof. reflexivity. Qed.

Lemma quiet_st_columns (widths : list Z) (blocks : list (ui unit)) :
  quiet (st_columns widths blocks).
Proof.
  unfold quiet, st_columns. now destruct (run_columns blocks).
Qed.

Lemma quiet_resolve_logo_url (info : dict) : quiet (resolve_logo_url info).
Proof.
  unfold quiet, resolve_logo_url.
  destruct (truthy (dict_get info "logo_url")); [reflexivity |].
  cbn [negb].
  destruct (dict_get_default info "website" (PyStr "")); try reflexivity.
  now destruct (truthy _).
Qed.

Lemma quiet_company_info (info : dict) : quiet (company_info info).
Proof.
  unfold company_info. apply quiet_bind.
  - unfold quiet, summary_shown. destruct (truthy _); [| reflexivity].
    now destruct (dict_get_default info "longBusinessSummary" (PyStr NO_DESCRIPTION)).
  - intros [|]; reflexivity.
Qed.

Lemma quiet_news_card (w : world) (article : pyval) : quiet (news_card w article).
Proof.
  unfold quiet, news_card.
  destruct article; try reflexivity.
  cbn [attr_get attr_get_default ret bind app].
  now destruct (fromtimestamp w _).
Qed.

Lemma quiet_for_each {A : Type} (l : list A) (body : A -> ui unit) :
  (forall x, quiet (body x)) -> quiet (for_each l body).
Proof.
  intros Hbody. induction l as [| x l IH]; [reflexivity |].
  simpl. apply quiet_bind; [apply Hbody | intros _; exact IH].
Qed.

Lemma quiet_news_section (cfg : config) (w : world) (ticker : string) :
  quiet (news_section cfg w ticker).
Proof.
  unfold news_section. apply quiet_bind; [reflexivity | intros _].
  apply quiet_bind.
  - destruct (negb _); [reflexivity | apply quiet_lift].
  - intros news. destruct (truthy (PyList news)).
    + apply quiet_for_each, quiet_news_card.
    + now destruct (truthy _).
Qed.

Lemma quiet_ticker_body (cfg : config) (w : world) (ticker : string) :
  quiet (ticker_body cfg w ticker).
Proof.
  unfold ticker_body.
  apply quiet_bind; [apply quiet_lift | intros info].
  apply quiet_bind; [apply quiet_lift | intros hist].
  destruct (empty hist); [reflexivity |].
  apply quiet_bind; [| intros _].
  { unfold company_header. apply quiet_bind; [apply quiet_resolve_logo_url |].
    intros u. apply quiet_st_columns. }
  apply quiet_bind; [| intros _].
  { unfold price_chart. apply quiet_bind; [apply quiet_lift | reflexivity]. }
  apply quiet_bind; [apply quiet_st_columns | intros _].
  apply quiet_bind; [apply quiet_company_info | intros _].
  apply quiet_bind; [reflexivity | intros _].
  apply quiet_bind; [apply quiet_news_section | reflexivity].
Qed.

Lemma render_ticker_errors (cfg : config) (w : world) (ticker : string) :
  List.length (filter is_error (fst (render_ticker cfg w ticker))) =
  if raises (ticker_body cfg w ticker) then 1%nat else 0%nat.
Proof.
  pose proof (quiet_ticker_body cfg w ticker) as Hq.
  unfold render_ticker, try_except, raises, quiet in *.
  destruct (ticker_body cfg w ticker) as [out [e | u]]; simpl in *.
  - now rewrite filter_app, Hq.
  - now rewrite Hq.
Qed.

(** X11. The dashboard never raises, and its page is the concatenation,
    in list order, of what each ticker renders on its own: a ticker listed
    twice is rendered twice, and no ticker changes another's output. *)
Theorem main_dashboard_concat (cfg : config) (w : world) (ts : list string) :
  main_dashboard cfg w ts =
  (flat_map (fun t => fst (render_ticker cfg w t)) ts, inr tt).
Proof.
  induction ts as [| t ts IH]; [reflexivity |].
  rewrite main_dashboard_cons, IH. reflexivity.
Qed.

(** X12. The page holds exactly one [st.error] for each listed ticker
    whose body raised, and none for the others: errors are only ever
    rendered by the handler at the ticker boundary. *)
Theorem one_error_per_failing_ticker (cfg : config) (w : world) (ts : list string) :
  List.length (filter is_error (fst (main_dashboard cfg w ts))) =
  List.length (filter (fun t => raises (ticker_body cfg w t)) ts).
Proof.
  induction ts as [| t ts IH]; [reflexivity |].
  rewrite main_dashboard_cons. cbn [fst filter].
  rewrite filter_app, length_app, IH, render_ticker_errors.
  destruct (raises (ticker_body cfg w t)); reflexivity.
Qed.

Lemma bind_returns {L A B : Type} (m : eff L A) (k : A -> eff L B) (out : list L) (b : B) :
  bind m k = (out, inr b) ->
  exists o1 a o2, m = (o1, inr a) /\ k a = (o2, inr b) /\ out = (o1 ++ o2)%list.
Proof.
  destruct m as [o1 [e | a]]; simpl; [discriminate |].
  destruct (k a) as [o2 r] eqn:Hk. intros H. injection H as <- ->.
  now exists o1, a, o2.
Qed.

(** X13. No listed ticker is dropped silently: each one renders at least
    one element (its header row, a warning or an error). *)
Theorem every_ticker_leaves_a_trace (cfg : config) (w : world) (ticker : string) :
  fst (render_ticker cfg w ticker) <> [].
Proof.
  unfold render_ticker, try_except.
  destruct (ticker_body cfg w ticker) as [out [e | u]] eqn:Hbody; simpl.
  - intros H. apply app_eq_nil in H. destruct H as [_ H]. discriminate.
  - unfold ticker_body in Hbody.
    apply bind_returns in Hbody. destruct Hbody as [o1 [info [o2 [_ [Hbody ->]]]]].
    apply bind_returns in Hbody. destruct Hbody as [o3 [hist [o4 [_ [Hbody ->]]]]].
    destruct (empty hist).
    + injection Hbody as <- _. intros H.
      apply app_eq_nil in H. destruct H as [_ H].
      apply app_eq_nil in H. destruct H as [_ H]. discriminate.
    + apply bind_returns in Hbody. destruct Hbody as [o5 [x [o6 [Hheader [_ ->]]]]].
      unfold company_header in Hheader.
      apply bind_returns in Hheader. destruct Hheader as [o7 [u' [o8 [_ [Hcols ->]]]]].
      unfold st_columns in Hcols. destruct (run_columns _) as [outs r].
      injection Hcols as <- _. intros H.
      apply app_eq_nil in H. destruct H as [_ H].
      apply app_eq_nil in H. destruct H as [_ H].
      apply app_eq_nil in H. destruct H as [H _].
      apply app_eq_nil in H. destruct H as [_ H]. discriminate.
Qed.

(** ** Values of the wrong type *)

(** X14. [company_info] raises exactly when the summary is truthy and not
    a text (a number, a list, a record): it then renders nothing and raises
    the [AttributeError] of [strip]; in every other case it returns. *)
Theorem company_info_raises_iff (info : dict) :
  let summary := dict_get_default info "longBusinessSummary" (PyStr NO_DESCRIPTION) in
  (truthy summary = true -> (forall s, summary <> PyStr s) ->
   company_info info = ([], inl (AttributeError summary "strip")))
  /\ (truthy summary = false \/ (exists s, summary = PyStr s) ->
      snd (company_info info) = inr tt).
Proof.
  intros summary. unfold company_info. fold summary. unfold summary_shown. split.
  - intros Htruthy Hnot. rewrite Htruthy.
    destruct summary as [| b | z | f | s | l | d]; try reflexivity.
    now elim (Hnot s).
  - intros [Hfalsy | [s Hs]].
    + rewrite Hfalsy. reflexivity.
    + rewrite Hs. destruct (truthy (PyStr s)); [| reflexivity].
      cbn [ret bind app]. now destruct (truthy (PyStr (strip s))).
Qed.

Lemma company_info_raises_iff_witness :
  company_info [("longBusinessSummary", PyInt 7)] =
    ([], inl (AttributeError (PyInt 7) "strip"))
  /\ snd (company_info [("longBusinessSummary", PyInt 0)]) = inr tt.
Proof.
  pose proof (company_info_raises_iff [("longBusinessSummary", PyInt 7)]) as [Hraise _].
  pose proof (company_info_raises_iff [("longBusinessSummary", PyInt 0)]) as [_ Hreturn].
  split.
  - apply Hraise; [reflexivity | discriminate].
  - apply Hreturn. now left.
Defined.

(** X15. A current price delivered as a non-empty text is rejected by the
    [,.2f] format: the metrics row is rendered with its four columns empty
    and the [ValueError] leaves the step, so no later metric is shown. *)
Theorem textual_price_empties_metrics (w : world) (info : dict) (ticker s : string) :
  dict_get info "currentPrice" = PyStr s ->
  s <> "" ->
  metrics w info ticker =
  ([StColumns [1; 1; 1; 1] [[]; []; []; []]],
   inl (Exn "ValueError" "Unknown format code 'f' for object of type 'str'")).
Proof.
  intros Hprice Hs. unfold metrics, st_columns.
  assert (Hcol : price_column info =
                 ([], inl (Exn "ValueError" "Unknown format code 'f' for object of type 'str'"))).
  { unfold price_column, money_or_na. rewrite Hprice.
    replace (truthy (PyStr s)) with true; [reflexivity |].
    simpl. destruct (String.eqb_spec s ""); [contradiction | reflexivity]. }
  cbn [run_columns]. rewrite Hcol. reflexivity.
Qed.

Lemma textual_price_empties_metrics_witness :
  metrics sample_world [("currentPrice", PyStr "150.00")] "AAPL" =
  ([StColumns [1; 1; 1; 1] [[]; []; []; []]],
   inl (Exn "ValueError" "Unknown format code 'f' for object of type 'str'")).
Proof.
  apply (textual_price_empties_metrics sample_world [("currentPrice", PyStr "150.00")]
           "AAPL" "150.00"); [reflexivity | discriminate].
Defined.

(** ** Chart background *)

Lemma load_presets_shape (a : assets) (w : world) (bg_choice : string) :
  exists bg,
    load_bg_image a w bg_choice None = ([], inr bg)
    /\ forall img, bg = Some img ->
         (bg_choice = "Beach 1" /\ image_file a "images/1.jpg" = inr img)
         \/ (bg_choice = "Beach 2" /\ image_file a "images/2.jpg" = inr img).
Proof.
  unfold load_bg_image, try_except.
  destruct (String.eqb_spec bg_choice "Beach 1") as [-> | H1].
  - destruct (image_file a "images/1.jpg") as [e | img] eqn:Hopen; simpl.
    + exists None. split; [reflexivity | discriminate].
    + exists (Some img). split; [reflexivity |].
      intros img' H. injection H as <-. now left.
  - destruct (String.eqb_spec bg_choice "Beach 2") as [-> | H2].
    + destruct (image_file a "images/2.jpg") as [e | img] eqn:Hopen; simpl.
      * exists None. split; [reflexivity | discriminate].
      * exists (Some img). split; [reflexivity |].
        intros img' H. injection H as <-. now right.
    + exists None. split; [reflexivity | discriminate].
Qed.

(** X16. Without an uploaded file, loading the background never raises;
    it yields a picture only for "Beach 1" or "Beach 2", and only when that
    preset's file opens: any other choice, and any failure to open, gives
    no background. *)
Theorem load_bg_image_presets (a : assets) (w : world) (bg_choice : string) :
  exists bg,
    load_bg_image a w bg_choice None = ([], inr bg)
    /\ forall img, bg = Some img ->
         (bg_choice = "Beach 1" /\ image_file a "images/1.jpg" = inr img)
         \/ (bg_choice = "Beach 2" /\ image_file a "images/2.jpg" = inr img).
Proof.
  exact (load_presets_shape a w bg_choice).
Qed.

(** X17. Loading the background raises in one case only: the choice is
    "Upload Your Own", a file was uploaded, and that file does not open as
    an image; the exception is then the one of opening it. Under any other
    choice the uploader's content is never looked at. *)
Theorem load_bg_image_raises_only_on_upload (a : assets) (w : world)
        (bg_choice : string) (uploader : option string) (out : list event) (e : exn) :
  load_bg_image a w bg_choice (uploaded_bg bg_choice uploader) = (out, inl e) ->
  bg_choice = "Upload Your Own"
  /\ exists file, uploader = Some file /\ image_open w file = inl e.
Proof.
  unfold uploaded_bg.
  destruct (String.eqb_spec bg_choice "Upload Your Own") as [-> | Hother].
  - destruct uploader as [file |].
    + cbn [load_bg_image]. intros H. split; [reflexivity |].
      exists file. split; [reflexivity |].
      destruct (image_open w file) as [e' | img]; simpl in H; [congruence | discriminate].
    + intros H. destruct (load_presets_shape a w "Upload Your Own") as [bg [Hbg _]].
      rewrite Hbg in H. discriminate.
  - intros H. destruct (load_presets_shape a w bg_choice) as [bg [Hbg _]].
    rewrite Hbg in H. discriminate.
Qed.

Lemma load_bg_image_raises_only_on_upload_witness :
  "Upload Your Own" = "Upload Your Own"
  /\ exists file,
       Some "not a picture" = Some file
       /\ image_open
            (World (yf_info sample_world) (yf_history sample_world)
                   (requests_get sample_world)
                   (fun _ => inl (Exn "UnidentifiedImageError" "cannot identify image file"))
                   (draw sample_world) (today sample_world) (fromtimestamp sample_world))
            file = inl (Exn "UnidentifiedImageError" "cannot identify image file").
Proof.
  apply (load_bg_image_raises_only_on_upload sample_assets _ "Upload Your Own"
           (Some "not a picture") []).
  reflexivity.
Defined.

(** ** A failing chart *)

(** X19. When the figure cannot be drawn, the ticker keeps its header
    row, shows no chart, no metrics, no summary and no news, and ends with
    the error naming the ticker and the drawing exception. *)
Theorem chart_failure_keeps_header (cfg : config) (w : world) (ticker : string)
        (info : dict) (hist : PriceHistory) (header : list event) (e : exn) :
  get_info_cached w ticker = inr info ->
  get_stock_data w ticker (period cfg) = inr hist ->
  hist <> [] ->
  company_header w info ticker = (header, inr tt) ->
  (forall fig, draw w fig = inl e) ->
  render_ticker cfg w ticker =
  ((header ++ [StError [Lit ("Could not load info for " ++ ticker ++ ": " ++ exn_text e)]])%list,
   inr tt).
Proof.
  intros Hinfo Hhist Hrows Hheader Hdraw.
  unfold render_ticker, ticker_body. rewrite Hinfo, Hhist.
  cbn [lift bind app].
  destruct hist as [| row rows]; [contradiction |].
  cbn [empty]. rewrite Hheader. unfold price_chart. rewrite Hdraw.
  cbn [lift bind app try_except st_error emit].
  now rewrite app_nil_r.
Qed.

Lemma chart_failure_keeps_header_witness :
  render_ticker sample_config
    (World (yf_info sample_world) (yf_history sample_world) (requests_get sample_world)
           (image_open sample_world)
           (fun _ => inl (Exn "ModuleNotFoundError" "No module named 'mplcyberpunk'"))
           (today sample_world) (fromtimestamp sample_world))
    "AAPL" =
  ([StColumns [1; 4]
      [[]; [StMarkdown [Lit "### "; Field (PyStr "Apple Inc.")];
            StCaption [Field (PyStr "N/A"); Lit " | "; Field (PyStr "N/A")]]];
    StError [Lit "Could not load info for AAPL: No module named 'mplcyberpunk'"]],
   inr tt).
Proof.
  apply (chart_failure_keeps_header sample_config _ "AAPL" sample_info sample_week
           [StColumns [1; 4]
              [[]; [StMarkdown [Lit "### "; Field (PyStr "Apple Inc.")];
                    StCaption [Field (PyStr "N/A"); Lit " | "; Field (PyStr "N/A")]]]]
           (Exn "ModuleNotFoundError" "No module named 'mplcyberpunk'"));
    [reflexivity | reflexivity | discriminate | reflexivity | reflexivity].
Defined.

(** ** Rendering without errors *)

Lemma returns_bind {L A B : Type} (m : eff L A) (k : A -> eff L B) :
  returns m -> (forall a, returns (k a)) -> returns (bind m k).
Proof.
  intros [out [a ->]] Hk. destruct (Hk a) as [out' [b Hb]].
  unfold bind. rewrite Hb. now eexists _, _.
Qed.

Lemma returns_ret {L A : Type} (a : A) : returns (@ret L A a).
Proof. now eexists _, _. Qed.

Lemma returns_emit {L : Type} (x : L) : returns (emit x).
Proof. now eexists _, _. Qed.

Lemma returns_lift {L A : Type} (a : A) : returns (@lift L A (inr a)).
Proof. now eexists _, _. Qed.

Lemma returns_st_columns (widths : list Z) (blocks : list (ui unit)) :
  Forall returns blocks -> returns (st_columns widths blocks).
Proof.
  intros Hall. unfold st_columns.
  assert (Hrun : exists outs, run_columns blocks = (outs, inr tt)).
  { induction Hall as [| block blocks [out [[] ->]] _ [outs IH]].
    - now exists [].
    - cbn [run_columns]. rewrite IH. now eexists. }
  destruct Hrun as [outs ->]. now eexists _, _.
Qed.

Lemma returns_for_each {L A : Type} (l : list A) (body : A -> eff L unit) :
  Forall (fun x => returns (body x)) l -> returns (for_each l body).
Proof.
  induction 1 as [| x l Hx _ IH]; [apply returns_ret |].
  simpl. apply returns_bind; [exact Hx | intros _; exact IH].
Qed.

(** What the filter keeps are records of the input that pass its test. *)
Lemma filter_keeps_records {L : Type} (items kept : list pyval) (out : list L) :
  with_headline_and_url items = (out, inr kept) ->
  Forall (fun item => In item items
                      /\ exists d, item = PyDict d /\ has_headline_and_url d = true) kept.
Proof.
  revert kept out. induction items as [| item rest IH]; intros kept out H.
  - injection H as _ <-. constructor.
  - cbn [with_headline_and_url] in H.
    destruct item as [| b | z | f | s | l | d]; try discriminate H.
    cbn [attr_get attr_get_default ret bind app] in H.
    destruct (truthy (dict_get_default d "headline" PyNone)) eqn:Hh;
      cbn [ret bind app] in H;
      destruct (with_headline_and_url rest) as [out' [e | kept']] eqn:Hrest;
      try discriminate H;
      specialize (IH kept' out' eq_refl);
      assert (Hrest' : Forall (fun item => In item (PyDict d :: rest)
                         /\ exists d', item = PyDict d' /\ has_headline_and_url d' = true)
                        kept')
        by (eapply Forall_impl; [| exact IH]; intros x [Hin Hx]; split; [now right | exact Hx]).
    + cbn [bind ret app] in H.
      destruct (truthy (dict_get_default d "url" PyNone)) eqn:Hu; injection H as _ <-.
      * constructor; [| exact Hrest'].
        split; [now left |]. exists d. split; [reflexivity |].
        unfold has_headline_and_url, dict_get. now rewrite Hh, Hu.
      * exact Hrest'.
    + cbn [bind ret app] in H. rewrite Hh in H. injection H as _ <-. exact Hrest'.
Qed.

Lemma news_are_records (w : world) (symbol api_key : string) (news : list pyval) :
  snd (get_company_news w symbol api_key) = inr news ->
  Forall (fun item => exists d, item = PyDict d /\ has_headline_and_url d = true) news.
Proof.
  unfold get_company_news.
  destruct (negb (truthy (PyStr api_key))).
  { intros H. injection H as <-. constructor. }
  unfold http_get, try_except.
  assert (Hnil : Forall (fun item => exists d, item = PyDict d
                                     /\ has_headline_and_url d = true) []) by constructor.
  destruct (requests_get w (news_request w symbol api_key)) as [e | response];
    [intros H; injection H as <-; exact Hnil |].
  cbn [bind].
  destruct (status_code response =? 200);
    [| intros H; injection H as <-; exact Hnil].
  destruct (json response) as [e | data];
    [intros H; injection H as <-; exact Hnil |].
  cbn [lift bind app].
  destruct (py_iter data) as [out1 [e | items]] eqn:Hiter;
    [intros H; simpl in H; injection H as <-; exact Hnil |].
  cbn [bind].
  destruct (with_headline_and_url items) as [out2 [e | kept]] eqn:Hkept;
    [intros H; simpl in H; injection H as <-; exact Hnil |].
  intros H. simpl in H. injection H as <-.
  eapply Forall_impl; [| exact (filter_keeps_records items kept out2 Hkept)].
  intros x [_ Hx]. exact Hx.
Qed.

(** X20. Whatever the provider sends, every article [get_company_news]
    returns is a record with a truthy headline and a truthy url. *)
Theorem news_items_are_linked_records (w : world) (symbol api_key : string)
        (news : list pyval) (item : pyval) :
  snd (get_company_news w symbol api_key) = inr news ->
  In item news ->
  exists d, item = PyDict d
            /\ truthy (dict_get d "headline") = true
            /\ truthy (dict_get d "url") = true.
Proof.
  intros Hnews Hin.
  pose proof (news_are_records w symbol api_key news Hnews) as Hall.
  rewrite Forall_forall in Hall. destruct (Hall item Hin) as [d [-> Hd]].
  exists d. unfold has_headline_and_url in Hd. apply andb_true_iff in Hd.
  now split.
Qed.

Lemma news_items_are_linked_records_witness :
  exists d, PyDict (sample_article "Chips up" "https://n.example/1") = PyDict d
            /\ truthy (dict_get d "headline") = true
            /\ truthy (dict_get d "url") = true.
Proof.
  apply (news_items_are_linked_records
           (news_world (inr (PyList [PyDict (sample_article "Chips up" "https://n.example/1");
                                     PyDict [("headline", PyStr "No link")]])))
           "AAPL" "secret"
           [PyDict (sample_article "Chips up" "https://n.example/1")]);
    [reflexivity | now left].
Defined.

Lemma returns_news_card (w : world) (d : dict) :
  (forall v, exists s, fromtimestamp w v = inr s) ->
  returns (news_card w (PyDict d)).
Proof.
  intros Hstamp. unfold news_card.
  cbn [attr_get attr_get_default ret bind app].
  destruct (Hstamp (dict_get_default d "datetime" (PyInt 0))) as [s ->].
  now eexists _, _.
Qed.

Lemma returns_bind_value {L A B : Type} (m : eff L A) (k : A -> eff L B)
      (out : list L) (a : A) :
  m = (out, inr a) -> returns (k a) -> returns (bind m k).
Proof.
  intros -> [out' [b Hb]]. unfold bind. rewrite Hb. now eexists _, _.
Qed.

Lemma Forall_firstn {A : Type} (P : A -> Prop) (n : nat) (l : list A) :
  Forall P l -> Forall P (firstn n l).
Proof.
  intros H. revert n. induction H as [| x l Hx _ IH]; intros [| n]; simpl;
    constructor; auto.
Qed.

Lemma returns_news_section (cfg : config) (w : world) (ticker : string) :
  (forall v, exists s, fromtimestamp w v = inr s) ->
  returns (news_section cfg w ticker).
Proof.
  intros Hstamp. unfold news_section.
  apply returns_bind; [apply returns_emit | intros _].
  destruct (truthy (PyStr (finnhub_api cfg))) eqn:Hkey; cbn [negb].
  - destruct (get_company_news_shape w ticker (finnhub_api cfg)) as [news Hnews].
    pose proof (news_are_records w ticker (finnhub_api cfg) news) as Hrecords.
    rewrite Hnews in *. cbn [snd] in *. specialize (Hrecords eq_refl).
    eapply returns_bind_value; [reflexivity |].
    destruct (truthy (PyList news)); [| apply returns_emit].
    apply returns_for_each, Forall_firstn.
    eapply Forall_impl; [| exact Hrecords].
    intros item [d [-> _]]. now apply returns_news_card.
  - eapply returns_bind_value; [reflexivity |].
    cbn [truthy]. apply returns_ret.
Qed.

(** X21. When every timestamp can be formatted, the news section never
    raises: with or without a key, and whatever the provider answered, the
    cards only read fields the fetch has checked. *)
Theorem news_section_never_raises (cfg : config) (w : world) (ticker : string) :
  (forall v, exists s, fromtimestamp w v = inr s) ->
  snd (news_section cfg w ticker) = inr tt.
Proof.
  intros Hstamp.
  destruct (returns_news_section cfg w ticker Hstamp) as [out [[] ->]]. reflexivity.
Qed.

Lemma news_section_never_raises_witness :
  snd (news_section keyed_config
         (news_world (inr (PyList [PyDict (sample_article "Chips up" "https://n.example/1");
                                   PyDict [("headline", PyStr "No link")]])))
         "AAPL") = inr tt.
Proof.
  apply (news_section_never_raises keyed_config
           (news_world (inr (PyList [PyDict (sample_article "Chips up" "https://n.example/1");
                                     PyDict [("headline", PyStr "No link")]])))
           "AAPL").
  intros v. now exists "Nov 04, 2026".
Defined.

Lemma returns_money_or_na (spec : string) (p : nat) (v : pyval) :
  price_like v -> returns (money_or_na spec p v).
Proof.
  unfold money_or_na.
  intros [Hfalsy | [[f ->] | [z [f [-> Hf]]]]].
  - rewrite Hfalsy. apply returns_ret.
  - destruct (truthy (PyFloat f)); [| apply returns_ret]. now eexists _, _.
  - destruct (truthy (PyInt z)); [| apply returns_ret].
    cbn [format_value_f]. rewrite Hf. now eexists _, _.
Qed.

Lemma returns_daily_change (w : world) (ticker : string) (hist_5d : PriceHistory) :
  get_stock_data w ticker "5d" = inr hist_5d -> returns (daily_change w ticker).
Proof.
  intros Hfetch.
  destruct (le_lt_dec 2 (List.length hist_5d)) as [Hlen | Hlen].
  - destruct (last_two hist_5d Hlen) as [older [prev [last ->]]].
    rewrite (daily_change_two w ticker older prev last Hfetch). now eexists _, _.
  - unfold daily_change. rewrite Hfetch. cbn [lift bind].
    replace (2 <=? Z.of_nat (List.length hist_5d)) with false
      by (symmetry; apply Z.leb_gt; lia).
    now eexists _, _.
Qed.

Lemma returns_company_info (info : dict) :
  text_like (dict_get_default info "longBusinessSummary" (PyStr NO_DESCRIPTION)) ->
  returns (company_info info).
Proof.
  intros Hsummary. unfold company_info, summary_shown.
  destruct Hsummary as [Hfalsy | [s Hs]].
  - rewrite Hfalsy. now eexists _, _.
  - rewrite Hs. destruct (truthy (PyStr s)); [| now eexists _, _].
    cbn [ret bind app]. destruct (truthy (PyStr (strip s))); now eexists _, _.
Qed.

Lemma returns_company_header (w : world) (info : dict) (ticker : string) :
  truthy (dict_get info "logo_url") = true
  \/ (exists site, dict_get_default info "website" (PyStr "") = PyStr site) ->
  returns (company_header w info ticker).
Proof.
  intros Hlogo. unfold company_header.
  apply returns_bind.
  - unfold resolve_logo_url.
    destruct (truthy (dict_get info "logo_url")) eqn:Htruthy; [apply returns_ret |].
    destruct Hlogo as [Hlogo | [site ->]]; [discriminate |].
    cbn [negb]. destruct (truthy (PyStr _)); apply returns_ret.
  - intros logo_url. apply returns_st_columns.
    constructor; [| constructor; [| constructor]].
    + destruct (logo_column_shape w logo_url) as [-> | [r [img [_ [_ [_ [_ ->]]]]]]];
        now eexists _, _.
    + now eexists _, _.
Qed.

(** X22. With working services and well-typed data the body of a ticker
    returns normally, so its iteration shows no error: the info and both
    history fetches answer, figures can be drawn, timestamps can be
    formatted, the record has a logo or a text (or no) website, its price
    and market cap are missing, zero, floats or ints within float range, and
    its summary is missing, falsy or a text. *)
Theorem well_formed_ticker_shows_no_error (cfg : config) (w : world) (ticker : string)
        (info : dict) (hist hist_5d : PriceHistory) :
  get_info_cached w ticker = inr info ->
  get_stock_data w ticker (period cfg) = inr hist ->
  get_stock_data w ticker "5d" = inr hist_5d ->
  (forall fig, draw w fig = inr tt) ->
  (forall v, exists s, fromtimestamp w v = inr s) ->
  truthy (dict_get info "logo_url") = true
  \/ (exists site, dict_get_default info "website" (PyStr "") = PyStr site) ->
  price_like (dict_get info "currentPrice") ->
  price_like (dict_get info "marketCap") ->
  text_like (dict_get_default info "longBusinessSummary" (PyStr NO_DESCRIPTION)) ->
  raises (ticker_body cfg w ticker) = false
  /\ filter is_error (fst (render_ticker cfg w ticker)) = [].
Proof.
  intros Hinfo Hhist H5d Hdraw Hstamp Hlogo Hprice Hcap Hsummary.
  assert (Hreturns : returns (ticker_body cfg w ticker)).
  { unfold ticker_body. rewrite Hinfo, Hhist.
    eapply returns_bind_value; [reflexivity |].
    eapply returns_bind_value; [reflexivity |].
    destruct (empty hist); [apply returns_emit |].
    apply returns_bind; [now apply returns_company_header | intros _].
    apply returns_bind; [| intros _].
    { unfold price_chart. rewrite Hdraw.
      eapply returns_bind_value; [reflexivity | apply returns_emit]. }
    apply returns_bind; [| intros _].
    { unfold metrics. apply returns_st_columns.
      repeat constructor.
      - unfold price_column. apply returns_bind;
          [now apply returns_money_or_na | intros v; apply returns_emit].
      - unfold cap_column. apply returns_bind;
          [now apply returns_money_or_na | intros v; apply returns_emit].
      - apply returns_emit.
      - exact (returns_daily_change w ticker hist_5d H5d). }
    apply returns_bind; [now apply returns_company_info | intros _].
    apply returns_bind; [apply returns_emit | intros _].
    apply returns_bind; [now apply returns_news_section | intros _].
    apply returns_emit. }
  pose proof (quiet_ticker_body cfg w ticker) as Hquiet.
  destruct Hreturns as [out [[] Hbody]].
  unfold raises, render_ticker, try_except, quiet in *. rewrite Hbody in *.
  split; [reflexivity | exact Hquiet].
Qed.

Lemma well_formed_ticker_shows_no_error_witness :
  raises (ticker_body sample_config sample_world "AAPL") = false
  /\ filter is_error (fst (render_ticker sample_config sample_world "AAPL")) = [].
Proof.
  apply (well_formed_ticker_shows_no_error sample_config sample_world "AAPL"
           sample_info sample_week sample_week);
    try reflexivity.
  - intros v. now exists "Nov 04, 2026".
  - right. now exists "".
  - right. left. now eexists.
  - right. right. eexists _, _. split; reflexivity.
  - right. now eexists.
Defined.
